(** * PythonTask: a shallow embedding of panda/src/event/pythonTask.cxx

    The C++ class [PythonTask] wraps a Python callable as an [AsyncTask].
    Its methods are embedded as computations in a small state-and-failure
    monad over a pair (task object, outside world).  The outside world
    holds what the methods write besides the task's own fields: the
    chronological trace of calls made into Python, of log lines and of
    raised assertions, and CPython's pending-error indicator. *)

From Stdlib Require Import ZArith String List Lia.
From Stdlib Require Import Floats.SpecFloat.
From stdpp Require Import base option list gmap strings pretty.

Local Open Scope Z_scope.
Local Open Scope string_scope.
Local Open Scope list_scope.
Set Warnings "-register-all".

(** ** Python values *)

(** A C [double], as an IEEE-754 binary64 value. *)
Definition double : Type := spec_float.

(** [(double) n] for a C [long] n: round to nearest even, 53-bit mantissa. *)
Definition double_of_long (n : Z) : double := binary_normalize 53 1024 n 0 false.

(** The Python objects the methods of the class can be handed.  [PyInt]
    is an integer object; only a value within the range of a C int is
    sure to be a Python int on every platform and to pass unchanged
    through the conversions to int and to double, so beyond that range
    what the conversions give is left to the outside (see [narrow] and
    [py_float] below).  An instance object carries
    the names of the attributes that resolve on it; looking one up gives a
    bound method.  [PyTaskRef] is the wrapper that
    DTool_CreatePyInstanceTyped makes around a task, told apart by the
    task's identifier. *)
Inductive PyObject : Type :=
| Py_None
| PyInt (n : Z)
| PyFloat (d : double)
| PyString (s : string)
| PyTuple (items : list PyObject)
| PyList (items : list PyObject)
| PyFunction (fid : nat)
| PyInstance (oid : nat) (attrs : list string)
| PyBoundMethod (oid : nat) (name : string)
| PyTaskRef (id : Z).

(** A [PyObject *]: [None] is the NULL pointer. *)
Definition PyPtr : Type := option PyObject.

(** [p != Py_None] on a non-NULL pointer. *)
Definition is_Py_None (o : PyObject) : bool :=
  match o with Py_None => true | _ => false end.

Definition has_attr (name : string) (attrs : list string) : bool :=
  existsb (String.eqb name) attrs.

Definition PyCallable_Check (o : PyObject) : bool :=
  match o with
  | PyFunction _ | PyBoundMethod _ _ => true
  | PyInstance _ attrs => has_attr "__call__" attrs
  | _ => false
  end.

(** [PySequence_Check]: the built-in sequences, and an instance that
    defines __getitem__. *)
Definition PySequence_Check (o : PyObject) : bool :=
  match o with
  | PyTuple _ | PyList _ | PyString _ => true
  | PyInstance _ attrs => has_attr "__getitem__" attrs
  | _ => false
  end.

Definition chars_of (s : string) : list PyObject :=
  map (fun c => PyString (String c EmptyString)) (list_ascii_of_string s).

(** The items of a built-in sequence. *)
Definition builtin_items (o : PyObject) : option (list PyObject) :=
  match o with
  | PyTuple items | PyList items => Some items
  | PyString s => Some (chars_of s)
  | _ => None
  end.

Definition PyInt_Check (o : PyObject) : bool :=
  match o with PyInt _ => true | _ => false end.

(** The range of a C int. *)
Definition in_int_range (n : Z) : bool :=
  Z.leb (- 2 ^ 31) n && Z.ltb n (2 ^ 31).

(** The double of a float object and of an integer within int range. *)
Definition builtin_double (o : PyObject) : option double :=
  match o with
  | PyFloat d => Some d
  | PyInt n => if in_int_range n then Some (double_of_long n) else None
  | _ => None
  end.

(** [PyString_AsString]: [None] (NULL, TypeError) on a non-string. *)
Definition PyString_AsString (o : PyObject) : option string :=
  match o with PyString s => Some s | _ => None end.

(** [PyObject_GetAttrString]: NULL (AttributeError) when the name does not
    resolve. *)
Definition PyObject_GetAttrString (o : PyObject) (name : string) : PyPtr :=
  match o with
  | PyInstance oid attrs =>
      if has_attr name attrs then Some (PyBoundMethod oid name) else None
  | _ => None
  end.

(** [s.c_str()] read as a C string, and a [char *] made into a string:
    the characters before the first NUL. *)
Fixpoint c_str (s : string) : string :=
  match s with
  | EmptyString => EmptyString
  | String c rest =>
      if Ascii.eqb c Ascii.zero then EmptyString else String c (c_str rest)
  end.

(** ** AsyncTask, the base class *)

(** Modelled from the spec: enum AsyncTask::State (asyncTask.h) is not
    among the sources; the spec gives the execution state as Inactive or
    Active, and the class only ever tests [_state != S_inactive]. *)
Inductive State : Type := S_inactive | S_active.

Definition State_eqb (a b : State) : bool :=
  match a, b with
  | S_inactive, S_inactive | S_active, S_active => true
  | _, _ => false
  end.

(** Modelled from the spec: enum AsyncTask::DoneStatus (asyncTask.h) is
    not among the sources; the spec names the four directives Done,
    Continue, Again and Abort, with integer codes 1 for Continue and 2 for
    Again; the enumerators are numbered in that order from 0. *)
Inductive DoneStatus : Type := DS_done | DS_cont | DS_again | DS_abort.

Definition DoneStatus_code (d : DoneStatus) : Z :=
  match d with DS_done => 0 | DS_cont => 1 | DS_again => 2 | DS_abort => 3 end.

(** Modelled from the spec: the fields of AsyncTask (asyncTask.h) that the
    class reads and writes through get_name, set_name, set_delay and
    [_task_id], [_state]: display name, immutable identifier, execution
    state and optional delay. *)
Record AsyncTask : Type := mkAsyncTask {
  _name : string;
  _task_id : Z;
  _state : State;
  _delay : double;
  _has_delay : bool
}.

Definition get_name (b : AsyncTask) : string := _name b.

Definition set_name (name : string) (b : AsyncTask) : AsyncTask :=
  mkAsyncTask name (_task_id b) (_state b) (_delay b) (_has_delay b).

Definition set_delay (delay : double) (b : AsyncTask) : AsyncTask :=
  mkAsyncTask (_name b) (_task_id b) (_state b) delay true.

Definition set_state (st : State) (b : AsyncTask) : AsyncTask :=
  mkAsyncTask (_name b) (_task_id b) st (_delay b) (_has_delay b).

(** Modelled from the spec: AsyncTask::output (asyncTask.cxx), which
    [operator <<] prints for [*this], is not among the sources; the spec
    has diagnostics identify the task by its display name, here after the
    type name. *)
Definition output (b : AsyncTask) : string := "PythonTask " +:+ get_name b.

(** ** The task object *)

Record PythonTask : Type := mkPythonTask {
  base : AsyncTask;
  _function : PyPtr;
  _args : PyPtr;
  _append_task : bool;
  _upon_death : PyPtr;
  _owner : PyPtr;
  _dict : gmap string PyObject
}.

Definition with_base (b : AsyncTask) (t : PythonTask) : PythonTask :=
  mkPythonTask b (_function t) (_args t) (_append_task t) (_upon_death t)
    (_owner t) (_dict t).
Definition with_function (p : PyPtr) (t : PythonTask) : PythonTask :=
  mkPythonTask (base t) p (_args t) (_append_task t) (_upon_death t)
    (_owner t) (_dict t).
Definition with_args (p : PyPtr) (t : PythonTask) : PythonTask :=
  mkPythonTask (base t) (_function t) p (_append_task t) (_upon_death t)
    (_owner t) (_dict t).
Definition with_append_task (a : bool) (t : PythonTask) : PythonTask :=
  mkPythonTask (base t) (_function t) (_args t) a (_upon_death t)
    (_owner t) (_dict t).
Definition with_upon_death (p : PyPtr) (t : PythonTask) : PythonTask :=
  mkPythonTask (base t) (_function t) (_args t) (_append_task t) p
    (_owner t) (_dict t).
Definition with_owner (p : PyPtr) (t : PythonTask) : PythonTask :=
  mkPythonTask (base t) (_function t) (_args t) (_append_task t)
    (_upon_death t) p (_dict t).
Definition with_dict (d : gmap string PyObject) (t : PythonTask) : PythonTask :=
  mkPythonTask (base t) (_function t) (_args t) (_append_task t)
    (_upon_death t) (_owner t) d.

(** The Python wrapper of [this]. *)
Definition self_ref (t : PythonTask) : PyObject := PyTaskRef (_task_id (base t)).

(** ** The outside world *)

(** The pending Python error; [PyExc_Raised] stands for whatever exception
    code on the Python side has raised. *)
Inductive PyErr : Type :=
| PyExc_TypeError | PyExc_KeyError | PyExc_AttributeError
| PyExc_OverflowError | PyExc_Raised.

(** The error pending after PyFloat_AsDouble has failed: the one that the
    conversion of an instance raised, OverflowError for an integer,
    TypeError for a built-in value that is no number. *)
Definition float_error (o : PyObject) : PyErr :=
  match o with
  | PyInstance _ _ => PyExc_Raised
  | PyInt _ => PyExc_OverflowError
  | _ => PyExc_TypeError
  end.

(** The error pending after PySequence_Tuple has failed: the one that the
    iteration of an instance raised, TypeError for what cannot be
    iterated. *)
Definition tuple_error (o : PyObject) : PyErr :=
  match o with
  | PyInstance _ attrs =>
      if has_attr "__getitem__" attrs || has_attr "__iter__" attrs
      then PyExc_Raised else PyExc_TypeError
  | _ => PyExc_TypeError
  end.

Inductive Event : Type :=
| EvCall (callee : PyObject) (args : list PyObject)
| EvError (msg : string)
| EvDebug (msg : string)
| EvAssert (msg : string)
| EvBirth
| EvDeath (clean_exit : bool).

Record World : Type := mkWorld {
  w_trace : list Event;
  w_pyerr : option PyErr
}.

Record Sys : Type := mkSys { task : PythonTask; world : World }.

(** ** The monad: state over [Sys], [None] for undefined behaviour
    (a NULL pointer dereferenced). *)
Definition M (A : Type) : Type := Sys -> option (A * Sys).

Definition ret {A} (a : A) : M A := fun s => Some (a, s).

Definition bind {A B} (m : M A) (k : A -> M B) : M B :=
  fun s => match m s with
           | Some (a, s') => k a s'
           | None => None
           end.

Definition undefined {A} : M A := fun _ => None.

Declare Scope task_scope.
Delimit Scope task_scope with task.
Notation "x <- m ;; k" := (bind m (fun x => k))
  (at level 100, m at next level, right associativity) : task_scope.
Notation "m ;;; k" := (bind m (fun _ => k))
  (at level 100, right associativity) : task_scope.
Local Open Scope task_scope.

Definition get_task : M PythonTask := fun s => Some (task s, s).

Definition modify_task (f : PythonTask -> PythonTask) : M unit :=
  fun s => Some (tt, mkSys (f (task s)) (world s)).

Definition emit (e : Event) : M unit :=
  fun s => Some (tt, mkSys (task s)
                       (mkWorld (w_trace (world s) ++ [e]) (w_pyerr (world s)))).

Definition PyErr_Occurred : M bool :=
  fun s => Some (bool_decide (is_Some (w_pyerr (world s))), s).

Definition PyErr_Set (e : PyErr) : M unit :=
  fun s => Some (tt, mkSys (task s) (mkWorld (w_trace (world s)) (Some e))).

(** [nassert_raise(message)]: the assertion failure is recorded; control
    continues after it. *)
Definition nassert_raise (message : string) : M unit := emit (EvAssert message).

(** Dereference: NULL is undefined behaviour. *)
Definition deref (p : PyPtr) : M PyObject :=
  match p with Some o => ret o | None => undefined end.

Definition when (b : bool) (m : M unit) : M unit := if b then m else ret tt.

Definition is_NULL (p : PyPtr) : bool :=
  match p with None => true | Some _ => false end.

(** The items of a tuple object; PyTuple_GET_SIZE and PyTuple_GET_ITEM do
    not check their argument, so anything else is undefined. *)
Definition tuple_items (o : PyObject) : M (list PyObject) :=
  match o with PyTuple items => ret items | _ => undefined end.

(** [PyFloat_AsDouble(v)]: on failure -1.0 with TypeError pending. *)
Definition minus_one : double := SFopp (SFone 53 1024).

(** [PyString_AsString(v)]: on failure NULL with TypeError pending. *)
Definition PyString_AsString_err (v : PyObject) : M (option string) :=
  match PyString_AsString v with
  | Some s => ret (Some s)
  | None => PyErr_Set PyExc_TypeError ;;; ret None
  end.

Definition nl : string := String (Ascii.ascii_of_nat 10) EmptyString.

(** [PyTuple_New(n)]: n slots, all NULL. *)
Definition PyTuple_New (n : nat) : list PyPtr := replicate n None.

(** [for (i = ...; i < num_args; ++i) PyTuple_SET_ITEM(with_task, i,
    PyTuple_GET_ITEM(_args, i))], by the number of rounds left. *)
Fixpoint copy_items (items : list PyObject) (i rounds : nat)
    (with_task : list PyPtr) : list PyPtr :=
  match rounds with
  | O => with_task
  | S rounds' =>
      copy_items items (S i) rounds' (<[i := items !! i]> with_task)
  end.

(** A tuple handed on with a slot still NULL is undefined. *)
Fixpoint filled (slots : list PyPtr) : option (list PyObject) :=
  match slots with
  | [] => Some []
  | Some o :: rest =>
      match filled rest with Some l => Some (o :: l) | None => None end
  | None :: _ => None
  end.

(** ** A concrete outside, to run the methods on *)

(** A rendering of values: integers in decimal, strings as they are. *)
Definition demo_repr (o : PyObject) : string :=
  match o with
  | Py_None => "None"
  | PyInt n => pretty n
  | PyString s => s
  | _ => "<object>"
  end.

(** A Python side where every call returns [r]. *)
Definition returning (r : PyObject)
  : list Event → PyObject → list PyObject → PyPtr :=
  λ _ _ _, Some r.

(** A Python side where every call raises. *)
Definition raising : list Event → PyObject → list PyObject → PyPtr :=
  λ _ _ _, None.

(** A Python side where no instance can be iterated or made a number. *)
Definition no_items : list Event → PyObject → option (list PyObject) :=
  λ _ _, None.

Definition no_float : list Event → PyObject → option double :=
  λ _ _, None.

(** The narrowing of a 64-bit long to a 32-bit int by wrap-around. *)
Definition wrap_int (n : Z) : Z := (n + 2 ^ 31) mod 2 ^ 32 - 2 ^ 31.

(** A clock that stands still. *)
Definition no_clock (b : AsyncTask) : double := S754_zero false.

(** A world where nothing has happened yet and no error is pending. *)
Definition quiet : World := mkWorld [] None.

(** An owner object with both notification methods. *)
Definition demo_owner (oid : nat) : PyObject :=
  PyInstance oid ["_addTask"; "_clearTask"].

(** A task named spin, number 7, running function 1 with the task appended
    to no arguments, in the given state, with the given owner and
    completion callback. *)
Definition demo_task (st : State) (owner cb : PyObject) : PythonTask :=
  mkPythonTask (mkAsyncTask "spin" 7 st (S754_zero false) false)
    (Some (PyFunction 1)) (Some (PyTuple [])) true (Some cb) (Some owner) ∅.

Definition demo_sys (st : State) (owner cb : PyObject) : Sys :=
  mkSys (demo_task st owner cb) quiet.

(** The trace a computation ends with. *)
Definition trace_of {A} (r : option (A * Sys)) : list Event :=
  match r with
  | Some (_, s) => w_trace (world s)
  | None => []
  end.

(** The task a computation ends with. *)
Definition task_of {A} (r : option (A * Sys)) : option PythonTask :=
  match r with
  | Some (_, s) => Some (task s)
  | None => None
  end.

(** The value a computation returns. *)
Definition value_of {A} (r : option (A * Sys)) : option A :=
  match r with
  | Some (a, _) => Some a
  | None => None
  end.

(** ** The methods of PythonTask *)

Section Methods.

(** What the class takes from outside pythonTask.cxx:
    - [PyObject_Repr], the rendering of a value: the characters that
      PyString_AsString(PyObject_Repr(v)) points to; a __repr__ that
      raises, after which the code would pass NULL on, is not modelled;
    - [py_call], what a call into Python returns ([None]: it raised), which
      may depend on everything that happened before; a callee, and so the
      methods behind [py_iterate] and [py_float], is taken not to call back
      into the task;
    - [get_elapsed_time], AsyncTask's reading of the clock;
    - [task_cat_is_debug], whether the task category logs at debug level;
    - [py_iterate], the items that iterating an instance yields ([None]:
      the iteration raised);
    - [py_float], the double that __float__ of an instance gives, and that
      the platform gives for an integer beyond the range of an int
      ([None]: the conversion raised);
    - [narrow], the int that the platform makes of an integer beyond the
      range of an int when it converts from long to int; an integer that
      the platform keeps as a long object, and so aborts the run for, is
      one that [narrow] sends to none of the directive codes. *)
Variable PyObject_Repr : PyObject -> string.
Variable py_call : list Event -> PyObject -> list PyObject -> PyPtr.
Variable get_elapsed_time : AsyncTask -> double.
Variable task_cat_is_debug : bool.
Variable py_iterate : list Event -> PyObject -> option (list PyObject).
Variable py_float : list Event -> PyObject -> option double.
Variable narrow : Z -> Z.

(** [PySequence_Tuple]: NULL, with an error pending, when the object
    cannot be iterated or the iteration raises. *)
Definition PySequence_Tuple (tr : list Event) (o : PyObject) : PyPtr :=
  match o with
  | PyInstance _ attrs =>
      if has_attr "__getitem__" attrs || has_attr "__iter__" attrs
      then option_map PyTuple (py_iterate tr o)
      else None
  | _ => option_map PyTuple (builtin_items o)
  end.

(** [PyFloat_AsDouble]: [None] when the conversion raises. *)
Definition PyFloat_AsDouble (tr : list Event) (o : PyObject) : option double :=
  match o with
  | PyInstance _ attrs => if has_attr "__float__" attrs then py_float tr o else None
  | PyInt n => if in_int_range n then Some (double_of_long n) else py_float tr o
  | _ => builtin_double o
  end.

(** [PyFloat_AsDouble(v)]: on failure -1.0 with an error pending. *)
Definition PyFloat_AsDouble_err (v : PyObject) : M double :=
  fun s =>
    match PyFloat_AsDouble (w_trace (world s)) v with
    | Some d => ret d s
    | None => (PyErr_Set (float_error v) ;;; ret minus_one) s
    end.

(** [int retval = PyInt_AS_LONG(result)]: the value itself when an int can
    hold it. *)
Definition int_of_long (n : Z) : Z := if in_int_range n then n else narrow n.

(** [_args = PySequence_Tuple(args)]. *)
Definition store_tuple (args : PyObject) : M unit :=
  fun s =>
    match PySequence_Tuple (w_trace (world s)) args with
    | Some t => modify_task (with_args (Some t)) s
    | None => PyErr_Set (tuple_error args) s
    end.

(** [PyObject_CallObject(function, args)]: NULL with an error pending when
    the callee is not callable or raises. *)
Definition PyObject_CallObject (function : PyObject) (args : list PyObject)
  : M PyPtr :=
  fun s =>
    let w := world s in
    let r := if PyCallable_Check function
             then py_call (w_trace w) function args else None in
    Some (r, mkSys (task s)
               (mkWorld (w_trace w ++ [EvCall function args])
                  (match r with
                   | Some _ => w_pyerr w
                   | None => Some PyExc_Raised
                   end))).

(** Modelled from the spec: Thread::call_python_func (thread.cxx) is not
    among the sources; the spec has run() invoke the work callable with the
    argument sequence and see either its value or that it raised. *)
Definition call_python_func (function : PyObject) (args : list PyObject)
  : M PyPtr :=
  PyObject_CallObject function args.

Definition set_function (function : PyObject) : M unit :=
  modify_task (with_function (Some function)) ;;;
  t <- get_task ;;
  f <- deref (_function t) ;;
  when (negb (PyCallable_Check f))
    (nassert_raise "Invalid function passed to PythonTask").

Definition get_function : M PyObject :=
  t <- get_task ;; deref (_function t).

Definition set_args (args : PyObject) (append_task : bool) : M unit :=
  modify_task (with_args None) ;;;
  (if is_Py_None args
   then modify_task (with_args (Some (PyTuple [])))
   else when (PySequence_Check args) (store_tuple args)) ;;;
  t <- get_task ;;
  when (is_NULL (_args t))
    (nassert_raise "Invalid args passed to PythonTask" ;;;
     modify_task (with_args (Some (PyTuple [])))) ;;;
  modify_task (with_append_task append_task).

Definition get_args : M PyObject :=
  t <- get_task ;;
  if _append_task t then
    a <- deref (_args t) ;;
    items <- tuple_items a ;;
    let num_args := length items in
    let with_task := PyTuple_New (num_args + 1) in
    let with_task := copy_items items 0 num_args with_task in
    let with_task := <[num_args := Some (self_ref t)]> with_task in
    match filled with_task with
    | Some l => ret (PyTuple l)
    | None => undefined
    end
  else deref (_args t).

Definition set_upon_death (upon_death : PyObject) : M unit :=
  modify_task (with_upon_death (Some upon_death)) ;;;
  t <- get_task ;;
  f <- deref (_upon_death t) ;;
  when (negb (is_Py_None f) && negb (PyCallable_Check f))
    (nassert_raise "Invalid upon_death function passed to PythonTask").

Definition get_upon_death : M PyObject :=
  t <- get_task ;; deref (_upon_death t).

Definition call_function (function : PyPtr) : M unit :=
  f <- deref function ;;
  when (negb (is_Py_None f))
    (t <- get_task ;;
     _ <- PyObject_CallObject f [self_ref t] ;;
     ret tt).

Definition call_owner_method (method_name : string) : M unit :=
  t <- get_task ;;
  owner <- deref (_owner t) ;;
  when (negb (is_Py_None owner))
    (match PyObject_GetAttrString owner method_name with
     | None =>
         PyErr_Set PyExc_AttributeError ;;;
         emit (EvError ("Owner object " +:+ PyObject_Repr owner +:+ " added to "
                        +:+ output (base t) +:+ " has no method "
                        +:+ method_name +:+ "()." +:+ nl))
     | Some func => call_function (Some func)
     end).

(** AsyncTask::upon_birth and AsyncTask::upon_death, the base-class hooks,
    are recorded in the trace with their argument. *)
Definition upon_birth : M unit :=
  emit EvBirth ;;;
  call_owner_method "_addTask".

Definition upon_death (clean_exit : bool) : M unit :=
  emit (EvDeath clean_exit) ;;;
  call_owner_method "_clearTask" ;;;
  t <- get_task ;;
  call_function (_upon_death t).

Definition is_active (t : PythonTask) : bool :=
  negb (State_eqb (_state (base t)) S_inactive).

Definition set_owner (owner : PyObject) : M unit :=
  t <- get_task ;;
  when (match _owner t with
        | Some o => negb (is_Py_None o) && is_active t
        | None => false
        end)
    (upon_death false) ;;;
  modify_task (with_owner (Some owner)) ;;;
  t <- get_task ;;
  o <- deref (_owner t) ;;
  when (negb (is_Py_None o) && is_active t) upon_birth.

Definition get_owner : M PyObject :=
  t <- get_task ;; deref (_owner t).

(** [__setattr__(attr_name, v)], the assignment [task.attr_name = v].  The
    name is compared as a whole; PyDict_SetItemString is handed
    [attr_name.c_str()], and set_name a [char *]. *)
Definition __setattr__ (attr_name : string) (v : PyObject) : M Z :=
  when task_cat_is_debug
    (t <- get_task ;;
     emit (EvDebug (output (base t) +:+ ": task." +:+ attr_name +:+ " = "
                    +:+ PyObject_Repr v +:+ nl))) ;;;
  if String.eqb attr_name "delayTime" then
    delay <- PyFloat_AsDouble_err v ;;
    failed <- PyErr_Occurred ;;
    when (negb failed)
      (modify_task (fun t => with_base (set_delay delay (base t)) t)) ;;;
    ret 0
  else if String.eqb attr_name "name" then
    name <- PyString_AsString_err v ;;
    match name with
    | Some n => modify_task (fun t => with_base (set_name (c_str n) (base t)) t)
    | None => ret tt
    end ;;;
    ret 0
  else if String.eqb attr_name "id" then
    nassert_raise "Cannot set constant value" ;;;
    ret 1
  else
    modify_task (fun t => with_dict (<[c_str attr_name := v]> (_dict t)) t) ;;;
    ret 0.

(** [__setattr__(attr_name)], the deletion [del task.attr_name]:
    PyDict_DelItemString gives -1 with KeyError when the key is absent. *)
Definition __delattr__ (attr_name : string) : M Z :=
  t <- get_task ;;
  match _dict t !! c_str attr_name with
  | Some _ =>
      modify_task (fun t => with_dict (delete (c_str attr_name) (_dict t)) t) ;;;
      ret 0
  | None => PyErr_Set PyExc_KeyError ;;; ret (-1)
  end.

(** [__getattr__(attr_name)], the read [task.attr_name]:
    PyMapping_GetItemString, handed [attr_name.c_str()], gives NULL with
    KeyError when the key is absent; PyString_FromString copies the name
    up to its first NUL. *)
Definition __getattr__ (attr_name : string) : M PyPtr :=
  t <- get_task ;;
  if String.eqb attr_name "time" then
    ret (Some (PyFloat (get_elapsed_time (base t))))
  else if String.eqb attr_name "done" then
    ret (Some (PyInt (DoneStatus_code DS_done)))
  else if String.eqb attr_name "cont" then
    ret (Some (PyInt (DoneStatus_code DS_cont)))
  else if String.eqb attr_name "again" then
    ret (Some (PyInt (DoneStatus_code DS_again)))
  else if String.eqb attr_name "name" then
    ret (Some (PyString (c_str (get_name (base t)))))
  else if String.eqb attr_name "id" then
    ret (Some (PyInt (_task_id (base t))))
  else
    match _dict t !! c_str attr_name with
    | Some v => ret (Some v)
    | None => PyErr_Set PyExc_KeyError ;;; ret None
    end.

(** The [switch (retval)] of do_task: [None] is the default label. *)
Definition switch_retval (retval : Z) : option DoneStatus :=
  if Z.eqb retval (DoneStatus_code DS_done) then Some DS_done
  else if Z.eqb retval (DoneStatus_code DS_cont) then Some DS_cont
  else if Z.eqb retval (DoneStatus_code DS_again) then Some DS_again
  else if Z.eqb retval (-1) then Some DS_done
  else None.

Definition do_task : M DoneStatus :=
  args <- get_args ;;
  t <- get_task ;;
  f <- deref (_function t) ;;
  items <- tuple_items args ;;
  result <- call_python_func f items ;;
  match result with
  | None =>
      emit (EvError ("Exception occurred in " +:+ output (base t) +:+ nl)) ;;;
      ret DS_abort
  | Some Py_None => ret DS_done
  | Some r =>
      match (match r with
             | PyInt n => switch_retval (int_of_long n)
             | _ => None
             end) with
      | Some status => ret status
      | None =>
          nassert_raise (output (base t) +:+ " returned " +:+ PyObject_Repr r) ;;;
          ret DS_abort
      end
  end.

(** ** Construction *)

(** Modelled from the spec: the constructor of AsyncTask (asyncTask.cxx) is
    not among the sources; the spec has a task start Inactive, with its
    name, an identifier assigned once at creation, and no delay. *)
Definition AsyncTask_new (name : string) (id : Z) : AsyncTask :=
  mkAsyncTask name id S_inactive (S754_zero false) false.

(** The object as the constructor's body finds it: the four pointers set
    to NULL by its first four statements. *)
Definition raw_task (name : string) (id : Z) : PythonTask :=
  mkPythonTask (AsyncTask_new name id) None None false None None ∅.

Definition PythonTask_body (function : PyObject) : M unit :=
  set_function function ;;;
  set_args Py_None true ;;;
  set_upon_death Py_None ;;;
  set_owner Py_None ;;;
  modify_task (with_dict ∅).

Definition PythonTask_new (function : PyObject) (name : string) (id : Z)
    (w : World) : option (unit * Sys) :=
  PythonTask_body function (mkSys (raw_task name id) w).

(** ** The scheduler's side *)

Definition goto_state (st : State) : M unit :=
  modify_task (fun t => with_base (set_state st (base t)) t).

(** Modelled from the spec: AsyncTaskManager (asyncTaskManager.cxx), which
    moves a task in and out of its active set, is not among the sources;
    the spec has the transition Inactive to Active fire the birth hook, and
    the transition Active to Inactive fire the death hook with the
    clean-exit flag. *)
Definition activate : M unit :=
  t <- get_task ;;
  when (negb (is_active t)) (goto_state S_active ;;; upon_birth).

Definition deactivate (clean_exit : bool) : M unit :=
  t <- get_task ;;
  when (is_active t) (goto_state S_inactive ;;; upon_death clean_exit).

(** The operations a client or the scheduler performs on a task. *)
Inductive Op : Type :=
| OpSetFunction (function : PyObject)
| OpSetArgs (args : PyObject) (append_task : bool)
| OpSetUponDeath (upon_death : PyObject)
| OpSetOwner (owner : PyObject)
| OpSetAttr (attr_name : string) (v : PyObject)
| OpDelAttr (attr_name : string)
| OpGetAttr (attr_name : string)
| OpRun
| OpActivate
| OpDeactivate (clean_exit : bool).

Definition discard {A} (m : M A) : M unit := _ <- m ;; ret tt.

Definition step (op : Op) : M unit :=
  match op with
  | OpSetFunction f => set_function f
  | OpSetArgs a b => set_args a b
  | OpSetUponDeath f => set_upon_death f
  | OpSetOwner o => set_owner o
  | OpSetAttr n v => discard (__setattr__ n v)
  | OpDelAttr n => discard (__delattr__ n)
  | OpGetAttr n => discard (__getattr__ n)
  | OpRun => discard do_task
  | OpActivate => activate
  | OpDeactivate c => deactivate c
  end.

Fixpoint run_ops (ops : list Op) : M unit :=
  match ops with
  | [] => ret tt
  | op :: rest => step op ;;; run_ops rest
  end.

(** [n] consecutive calls of do_task, collecting the directives. *)
Fixpoint run_times (n : nat) : M (list DoneStatus) :=
  match n with
  | O => ret []
  | S n' => d <- do_task ;; ds <- run_times n' ;; ret (d :: ds)
  end.

(** ** Vocabulary of the properties *)

(** What the constructor establishes and every method keeps: no pointer
    field is NULL and [_args] points to a tuple. *)
Record well_formed (t : PythonTask) : Prop := mk_well_formed {
  wf_function : is_Some (_function t);
  wf_args : ∃ items, _args t = Some (PyTuple items);
  wf_upon_death : is_Some (_upon_death t);
  wf_owner : is_Some (_owner t)
}.

(** The names [__setattr__] keeps out of the dictionary. *)
Definition write_reserved : list string := ["delayTime"; "name"; "id"].

(** The names [__getattr__] answers without looking into the dictionary. *)
Definition read_reserved : list string :=
  ["time"; "done"; "cont"; "again"; "name"; "id"].

Definition reserved_free (t : PythonTask) : Prop :=
  ∀ k, k ∈ write_reserved → _dict t !! k = None.

(** The events a computation adds to the trace. *)
Definition added_trace (s s' : Sys) (evs : list Event) : Prop :=
  w_trace (world s') = w_trace (world s) ++ evs.

(** [e1] is recorded before [e2]. *)
Definition precedes (e1 e2 : Event) (trace : list Event) : Prop :=
  ∃ l1 l2 l3, trace = l1 ++ e1 :: l2 ++ e2 :: l3.

(** A call with the task itself as sole argument. *)
Definition invoke (f : PyObject) (t : PythonTask) : Event :=
  EvCall f [self_ref t].

(** Delivering a notification to the owner: the method of that name is
    looked up on the owner object and invoked with the task as sole
    argument; an owner without the method gets a log line instead; the none
    owner gets nothing. *)
Definition deliver (owner : PyObject) (method_name : string) (t : PythonTask)
  : list Event :=
  if is_Py_None owner then []
  else match PyObject_GetAttrString owner method_name with
       | Some func => [invoke func t]
       | None =>
           [EvError ("Owner object " +:+ PyObject_Repr owner +:+ " added to "
                     +:+ output (base t) +:+ " has no method "
                     +:+ method_name +:+ "()." +:+ nl)]
       end.

(** The completion callback's part of the death hook: nothing for the none
    sentinel. *)
Definition completion (cb : PyObject) (t : PythonTask) : list Event :=
  if is_Py_None cb then [] else [invoke cb t].

Definition is_call (e : Event) : bool :=
  match e with EvCall _ _ => true | _ => false end.

(** The calls into Python among some events. *)
Definition calls (evs : list Event) : list Event := List.filter is_call evs.

(** The arguments set_args accepts after the events [tr]: none, or a
    sequence that PySequence_Tuple makes a tuple of. *)
Definition valid_args (tr : list Event) (args : PyObject) : bool :=
  is_Py_None args
  || (PySequence_Check args && negb (is_NULL (PySequence_Tuple tr args))).

(** The items set_args stores for an argument: those of the sequence, and
    none for anything else. *)
Definition template (tr : list Event) (args : PyObject) : list PyObject :=
  if is_Py_None args then []
  else if PySequence_Check args
       then match PySequence_Tuple tr args with
            | Some (PyTuple items) => items
            | _ => []
            end
       else [].

(** The line __setattr__ logs when the task category is at debug level. *)
Definition debug_events (t : PythonTask) (attr_name : string) (v : PyObject)
  : list Event :=
  if task_cat_is_debug
  then [EvDebug (output (base t) +:+ ": task." +:+ attr_name +:+ " = "
                 +:+ PyObject_Repr v +:+ nl)]
  else [].

(** What PyFloat_AsDouble makes of [v] in a write of delayTime, after the
    debug line. *)
Definition delay_of (s : Sys) (v : PyObject) : option double :=
  PyFloat_AsDouble (w_trace (world s) ++ debug_events (task s) "delayTime" v) v.

(** What every operation keeps of a task: well-formedness, the
    identifier, and, unless it is a write under a name with a NUL in it, a
    dictionary free of the names __setattr__ reserves. *)
Definition keeps (plain : bool) (t t' : PythonTask) : Prop :=
  (well_formed t → well_formed t')
  ∧ _task_id (base t') = _task_id (base t)
  ∧ (plain = true → reserved_free t → reserved_free t').

(** A name without a NUL character: its C string is the name itself. *)
Definition nul_free (k : string) : bool := String.eqb (c_str k) k.

(** An operation that writes no attribute under a name with a NUL. *)
Definition plain_op (op : Op) : bool :=
  match op with
  | OpSetAttr k _ => nul_free k
  | _ => true
  end.

(** The typed value __getattr__ gives for a name it reserves. *)
Definition typed_value (t : PythonTask) (k : string) : PyPtr :=
  if String.eqb k "time" then Some (PyFloat (get_elapsed_time (base t)))
  else if String.eqb k "done" then Some (PyInt 0)
  else if String.eqb k "cont" then Some (PyInt 1)
  else if String.eqb k "again" then Some (PyInt 2)
  else if String.eqb k "name" then Some (PyString (c_str (get_name (base t))))
  else if String.eqb k "id" then Some (PyInt (_task_id (base t)))
  else None.

(** What the work callable gives when called in state [s]: [None] when it
    raises or cannot be called. *)
Definition work_result (s : Sys) (f : PyObject) (args : list PyObject) : PyPtr :=
  if PyCallable_Check f then py_call (w_trace (world s)) f args else None.

(** The directive and the diagnostics do_task draws from the outcome of
    the call. *)
Definition interpret (t : PythonTask) (result : PyPtr)
  : DoneStatus * list Event :=
  match result with
  | None =>
      (DS_abort,
       [EvError ("Exception occurred in " +:+ output (base t) +:+ nl)])
  | Some Py_None => (DS_done, [])
  | Some r =>
      match (match r with
             | PyInt n => switch_retval (int_of_long n)
             | _ => None
             end) with
      | Some status => (status, [])
      | None =>
          (DS_abort,
           [EvAssert (output (base t) +:+ " returned " +:+ PyObject_Repr r)])
      end
  end.

(** The mapping from outcome to directive in the words of the
    specification's list: no value gives Done, 1 Continue, 2 Again, -1
    Done, and any other value, or an error raised, gives Abort. *)
Definition listed_directive (result : PyPtr) : DoneStatus :=
  match result with
  | None => DS_abort
  | Some Py_None => DS_done
  | Some (PyInt 1) => DS_cont
  | Some (PyInt 2) => DS_again
  | Some (PyInt (-1)) => DS_done
  | Some _ => DS_abort
  end.

(** The arguments of a call: the template, with the task appended when
    [_append_task] is set. *)
Definition call_args (t : PythonTask) (items : list PyObject) : list PyObject :=
  if _append_task t then items ++ [self_ref t] else items.

(** What set_owner adds to the trace when the task has owner [old] and
    completion callback [cb]. *)
Definition unbind_events (old cb : PyObject) (t : PythonTask) : list Event :=
  if negb (is_Py_None old) && is_active t
  then EvDeath false :: deliver old "_clearTask" t ++ completion cb t
  else [].

Definition bind_events (new : PyObject) (t : PythonTask) : list Event :=
  if negb (is_Py_None new) && is_active t
  then EvBirth :: deliver new "_addTask" t
  else [].

(** ** Vocabulary of the further properties *)

(** The names that go through the dictionary both ways: neither
    __setattr__ nor __getattr__ tests for them. *)
Definition ordinary (k : string) : Prop :=
  (k ∉ write_reserved) ∧ (k ∉ read_reserved).

(** The names __getattr__ answers itself although __setattr__ puts them in
    the dictionary. *)
Definition shadowed : list string := ["time"; "done"; "cont"; "again"].

(** A client that reads the arguments and stores them again, [n] times:
    [task.setArgs(task.getArgs(), append_task)]. *)
Fixpoint feed_back (append_task : bool) (n : nat) : M unit :=
  match n with
  | O => ret tt
  | S n' =>
      args <- get_args ;;
      set_args args append_task ;;;
      feed_back append_task n'
  end.

(** An event that calls the method [name] bound to the object [oid]. *)
Definition is_notification (oid : nat) (name : string) (e : Event) : bool :=
  match e with
  | EvCall (PyBoundMethod o n) _ => Nat.eqb o oid && String.eqb n name
  | _ => false
  end.

(** How often the method [name] of the object [oid] is called in a trace. *)
Definition notified (oid : nat) (name : string) (evs : list Event) : nat :=
  length (List.filter (is_notification oid name) evs).

(** 1 when [o] is the object [oid] and the method [name] resolves on it. *)
Definition answers (o : PyObject) (oid : nat) (name : string) : nat :=
  match o with
  | PyInstance o' attrs =>
      if Nat.eqb o' oid && has_attr name attrs then 1%nat else 0%nat
  | _ => 0%nat
  end.

(** 1 when the task is Active and owned by the object [oid], on which
    _addTask resolves. *)
Definition registered (t : PythonTask) (oid : nat) : nat :=
  match _owner t with
  | Some o => if is_active t then answers o oid "_addTask" else 0%nat
  | None => 0%nat
  end.

(** Every object has been sent _addTask as often as _clearTask, and once
    more while the task is registered with it. *)
Definition balanced (s : Sys) : Prop :=
  ∀ oid, notified oid "_addTask" (w_trace (world s))
         = (notified oid "_clearTask" (w_trace (world s))
            + registered (task s) oid)%nat.

(** An owner on which _addTask and _clearTask resolve together or not at
    all. *)
Definition symmetric_owner (o : PyObject) : bool :=
  match o with
  | PyInstance _ attrs =>
      Bool.eqb (has_attr "_addTask" attrs) (has_attr "_clearTask" attrs)
  | _ => true
  end.

(** A callable that is not itself a method named _addTask or _clearTask. *)
Definition plain_callable (f : PyObject) : bool :=
  match f with
  | PyBoundMethod _ n =>
      negb (String.eqb n "_addTask") && negb (String.eqb n "_clearTask")
  | _ => true
  end.

Definition tame (t : PythonTask) : Prop :=
  (∀ o, _owner t = Some o → symmetric_owner o = true)
  ∧ (∀ f, _function t = Some f → plain_callable f = true)
  ∧ (∀ f, _upon_death t = Some f → plain_callable f = true).

Definition tame_op (op : Op) : bool :=
  match op with
  | OpSetFunction f | OpSetUponDeath f => plain_callable f
  | OpSetOwner o => symmetric_owner o
  | _ => true
  end.

(** * Properties *)

(** ** The monad *)

(** Unfolding the monad down to matches on the data. *)
Ltac unfold_monad :=
  unfold discard, goto_state, when, deref, tuple_items, nassert_raise, emit,
    PyErr_Occurred, PyErr_Set, PyFloat_AsDouble_err, PyString_AsString_err,
    modify_task, get_task, undefined, bind, ret in *.

(** ** The argument tuple *)

Lemma filled_Some (l : list PyObject) : filled (map Some l) = Some l.
Proof. induction l as [|x l IH]; simpl; [reflexivity | rewrite IH; reflexivity]. Qed.

(** The loop invariant of get_args: after [i] rounds the first [i] slots
    hold the first [i] items and the others are still NULL. *)
Lemma copy_items_inv (items : list PyObject) (rounds : nat) :
  ∀ i, (i + rounds = length items)%nat →
    copy_items items i rounds (map Some (take i items) ++ replicate (S rounds) None)
    = map Some items ++ [None].
Proof.
  induction rounds as [|r IH]; intros i Hi; simpl.
  - rewrite take_ge by lia. reflexivity.
  - destruct (lookup_lt_is_Some_2 items i) as [x Hx]; [lia|].
    rewrite Hx.
    replace (<[i:=Some x]> (map Some (take i items) ++ None :: None :: replicate r None))
      with (map Some (take (S i) items) ++ replicate (S r) None).
    + apply IH. lia.
    + rewrite (take_S_r _ _ _ Hx), map_app, <- app_assoc. simpl.
      rewrite insert_app_r_alt; rewrite length_map, length_take; [|lia].
      replace (i - i `min` length items)%nat with 0%nat by lia. reflexivity.
Qed.

Lemma get_args_slots (items : list PyObject) (self : PyObject) :
  filled (<[length items := Some self]>
            (copy_items items 0 (length items) (PyTuple_New (length items + 1))))
  = Some (items ++ [self]).
Proof.
  unfold PyTuple_New. replace (length items + 1)%nat with (S (length items)) by lia.
  pose proof (copy_items_inv items (length items) 0%nat eq_refl) as H.
  rewrite take_0 in H. simpl in H. simpl. rewrite H.
  rewrite insert_app_r_alt; rewrite length_map; [|lia].
  replace (length items - length items)%nat with 0%nat by lia. simpl.
  rewrite <- (filled_Some (items ++ [self])), map_app. reflexivity.
Qed.

Lemma get_args_eq (s : Sys) (items : list PyObject) :
  _args (task s) = Some (PyTuple items) →
  get_args s = Some (PyTuple (call_args (task s) items), s).
Proof.
  intros Ha. unfold get_args, call_args. unfold_monad. rewrite Ha.
  destruct (_append_task (task s)); [|reflexivity].
  rewrite get_args_slots. reflexivity.
Qed.

(** ** The hooks *)

Lemma added_trace_nil (s : Sys) : added_trace s s [].
Proof. unfold added_trace. rewrite app_nil_r. reflexivity. Qed.

Lemma added_trace_app (s1 s2 s3 : Sys) (e1 e2 : list Event) :
  added_trace s1 s2 e1 → added_trace s2 s3 e2 → added_trace s1 s3 (e1 ++ e2).
Proof.
  unfold added_trace. intros H1 H2. rewrite H2, H1, app_assoc. reflexivity.
Qed.

Lemma emit_eq (e : Event) (s : Sys) :
  ∃ s', emit e s = Some (tt, s') ∧ task s' = task s ∧ added_trace s s' [e].
Proof. eexists. split; [reflexivity|]. split; reflexivity. Qed.

Lemma call_function_eq (f : PyObject) (s : Sys) :
  ∃ s', call_function (Some f) s = Some (tt, s') ∧ task s' = task s
        ∧ added_trace s s' (completion f (task s)).
Proof.
  unfold call_function, completion, PyObject_CallObject. unfold_monad.
  destruct (is_Py_None f); simpl.
  - exists s. split; [reflexivity|]. split; [reflexivity | apply added_trace_nil].
  - eexists. split; [reflexivity|]. split; reflexivity.
Qed.

Lemma GetAttr_bound (o : PyObject) (name : string) (func : PyObject) :
  PyObject_GetAttrString o name = Some func →
  ∃ oid attrs, o = PyInstance oid attrs ∧ has_attr name attrs = true
               ∧ func = PyBoundMethod oid name.
Proof.
  destruct o as [| | | | | | |oid attrs| |]; simpl; try discriminate.
  destruct (has_attr name attrs) eqn:E; [|discriminate].
  intros [= <-]. exists oid, attrs. repeat split; assumption.
Qed.

Lemma call_owner_method_eq (method_name : string) (owner : PyObject) (s : Sys) :
  _owner (task s) = Some owner →
  ∃ s', call_owner_method method_name s = Some (tt, s') ∧ task s' = task s
        ∧ added_trace s s' (deliver owner method_name (task s)).
Proof.
  intros Ho. unfold call_owner_method, deliver. unfold_monad. rewrite Ho.
  destruct (is_Py_None owner); simpl.
  - exists s. split; [reflexivity|]. split; [reflexivity | apply added_trace_nil].
  - destruct (PyObject_GetAttrString owner method_name) as [func|] eqn:Hg.
    + destruct (call_function_eq func s) as (s' & E & Ht & Htr).
      exists s'. split; [exact E|]. split; [exact Ht|].
      destruct (GetAttr_bound _ _ _ Hg) as (oid & attrs & _ & _ & ->).
      exact Htr.
    + eexists. split; [reflexivity|]. split; reflexivity.
Qed.

Lemma bind_eq {A B} (m : M A) (k : A → M B) (s s1 : Sys) (a : A) :
  m s = Some (a, s1) → bind m k s = k a s1.
Proof. intros E. unfold bind. rewrite E. reflexivity. Qed.

Lemma upon_birth_eq (owner : PyObject) (s : Sys) :
  _owner (task s) = Some owner →
  ∃ s', upon_birth s = Some (tt, s') ∧ task s' = task s
        ∧ added_trace s s' (EvBirth :: deliver owner "_addTask" (task s)).
Proof.
  intros Ho. unfold upon_birth.
  destruct (emit_eq EvBirth s) as (s1 & E1 & T1 & A1).
  rewrite (bind_eq _ _ _ _ _ E1).
  destruct (call_owner_method_eq "_addTask" owner s1) as (s2 & E2 & T2 & A2);
    [rewrite T1; exact Ho|].
  exists s2. split; [exact E2|]. split; [congruence|].
  rewrite T1 in A2. exact (added_trace_app _ _ _ _ _ A1 A2).
Qed.

Lemma upon_death_eq (clean_exit : bool) (owner cb : PyObject) (s : Sys) :
  _owner (task s) = Some owner → _upon_death (task s) = Some cb →
  ∃ s', upon_death clean_exit s = Some (tt, s') ∧ task s' = task s
        ∧ added_trace s s' (EvDeath clean_exit
                              :: deliver owner "_clearTask" (task s)
                              ++ completion cb (task s)).
Proof.
  intros Ho Hc. unfold upon_death.
  destruct (emit_eq (EvDeath clean_exit) s) as (s1 & E1 & T1 & A1).
  rewrite (bind_eq _ _ _ _ _ E1).
  destruct (call_owner_method_eq "_clearTask" owner s1) as (s2 & E2 & T2 & A2);
    [rewrite T1; exact Ho|].
  rewrite (bind_eq _ _ _ _ _ E2).
  unfold bind at 1, get_task. rewrite T2, T1, Hc.
  destruct (call_function_eq cb s2) as (s3 & E3 & T3 & A3).
  exists s3. split; [exact E3|]. split; [congruence|].
  rewrite T1 in A2. rewrite T2, T1 in A3.
  exact (added_trace_app _ _ _ _ _ A1 (added_trace_app _ _ _ _ _ A2 A3)).
Qed.

Lemma deliver_with_owner (o : PyObject) (name : string) (p : PyPtr) (t : PythonTask) :
  deliver o name (with_owner p t) = deliver o name t.
Proof. reflexivity. Qed.

Lemma set_owner_eq (old cb new : PyObject) (s : Sys) :
  _owner (task s) = Some old → _upon_death (task s) = Some cb →
  ∃ s', set_owner new s = Some (tt, s')
        ∧ task s' = with_owner (Some new) (task s)
        ∧ added_trace s s' (unbind_events old cb (task s)
                              ++ bind_events new (task s)).
Proof.
  intros Ho Hc. unfold set_owner, unbind_events, bind_events.
  unfold bind at 1, get_task. rewrite Ho.
  assert (∃ s1, when (negb (is_Py_None old) && is_active (task s))
                  (upon_death false) s = Some (tt, s1)
                ∧ task s1 = task s
                ∧ added_trace s s1
                    (if negb (is_Py_None old) && is_active (task s)
                     then EvDeath false :: deliver old "_clearTask" (task s)
                                        ++ completion cb (task s)
                     else [])) as (s1 & E1 & T1 & A1).
  { destruct (negb (is_Py_None old) && is_active (task s)); simpl.
    - apply upon_death_eq; assumption.
    - exists s. split; [reflexivity|]. split; [reflexivity|apply added_trace_nil]. }
  rewrite (bind_eq _ _ _ _ _ E1).
  unfold bind at 1, modify_task. unfold bind at 1, get_task. simpl.
  unfold bind at 1, deref, ret. rewrite T1.
  change (is_active (with_owner (Some new) (task s))) with (is_active (task s)).
  destruct (negb (is_Py_None new) && is_active (task s)); simpl.
  - destruct (upon_birth_eq new
                (mkSys (with_owner (Some new) (task s)) (world s1)))
      as (s2 & E2 & T2 & A2); [reflexivity|].
    exists s2. split; [exact E2|]. split; [exact T2|].
    simpl in A2. rewrite deliver_with_owner in A2.
    eapply added_trace_app; [exact A1 | exact A2].
  - eexists. split; [reflexivity|]. split; [reflexivity|].
    rewrite app_nil_r. exact A1.
Qed.

(** ** Transitions *)

Lemma activate_eq (owner : PyObject) (s : Sys) :
  _owner (task s) = Some owner → is_active (task s) = false →
  ∃ s', activate s = Some (tt, s')
        ∧ task s' = with_base (set_state S_active (base (task s))) (task s)
        ∧ added_trace s s' (EvBirth :: deliver owner "_addTask" (task s)).
Proof.
  intros Ho Hi. unfold activate. unfold bind at 1, get_task. rewrite Hi. simpl.
  unfold goto_state. unfold bind at 1, modify_task.
  apply (upon_birth_eq owner
           (mkSys (with_base (set_state S_active (base (task s))) (task s))
              (world s))).
  exact Ho.
Qed.

Lemma deactivate_eq (clean_exit : bool) (owner cb : PyObject) (s : Sys) :
  _owner (task s) = Some owner → _upon_death (task s) = Some cb →
  is_active (task s) = true →
  ∃ s', deactivate clean_exit s = Some (tt, s')
        ∧ task s' = with_base (set_state S_inactive (base (task s))) (task s)
        ∧ added_trace s s' (EvDeath clean_exit
                              :: deliver owner "_clearTask" (task s)
                              ++ completion cb (task s)).
Proof.
  intros Ho Hc Hi. unfold deactivate. unfold bind at 1, get_task. rewrite Hi.
  simpl. unfold goto_state. unfold bind at 1, modify_task.
  apply (upon_death_eq clean_exit owner cb
           (mkSys (with_base (set_state S_inactive (base (task s))) (task s))
              (world s))); assumption.
Qed.

(** ** Order in a trace *)

Lemma precedes_nil (e1 e2 : Event) : ¬ precedes e1 e2 [].
Proof. intros (l1 & l2 & l3 & H). destruct l1; discriminate H. Qed.

Lemma precedes_cons (e1 e2 x : Event) (l : list Event) :
  precedes e1 e2 (x :: l) → (x = e1 ∧ e2 ∈ l) ∨ precedes e1 e2 l.
Proof.
  intros (l1 & l2 & l3 & H). destruct l1 as [|y l1]; simpl in H.
  - injection H as -> ->. left. split; [reflexivity|].
    apply elem_of_app. right. left.
  - injection H as -> ->. right. exists l1, l2, l3. reflexivity.
Qed.

Lemma precedes_intro (e1 e2 : Event) (l1 l2 l3 : list Event) :
  precedes e1 e2 (l1 ++ e1 :: l2 ++ e2 :: l3).
Proof. exists l1, l2, l3. reflexivity. Qed.

(** ** What a delivery can contain *)

Lemma elem_of_deliver (o : PyObject) (name : string) (t : PythonTask) (e : Event) :
  e ∈ deliver o name t →
  (∃ oid attrs, o = PyInstance oid attrs ∧ e = invoke (PyBoundMethod oid name) t)
  ∨ (∃ msg, e = EvError msg).
Proof.
  unfold deliver. destruct (is_Py_None o); [intros H; inversion H|].
  destruct (PyObject_GetAttrString o name) as [func|] eqn:Hg; intros H;
    apply list_elem_of_singleton in H; subst e.
  - left. destruct (GetAttr_bound _ _ _ Hg) as (oid & attrs & -> & _ & ->).
    exists oid, attrs. split; reflexivity.
  - right. eexists. reflexivity.
Qed.

Lemma elem_of_completion (cb : PyObject) (t : PythonTask) (e : Event) :
  e ∈ completion cb t → e = invoke cb t.
Proof.
  unfold completion. destruct (is_Py_None cb); intros H; [inversion H|].
  apply list_elem_of_singleton in H. exact H.
Qed.

Lemma elem_of_unbind_events (old cb : PyObject) (t : PythonTask) (e : Event) :
  e ∈ unbind_events old cb t →
  e = EvDeath false ∨ e ∈ deliver old "_clearTask" t ∨ e = invoke cb t.
Proof.
  unfold unbind_events. destruct (negb (is_Py_None old) && is_active t);
    intros H; [|inversion H].
  apply elem_of_cons in H as [->|H]; [left; reflexivity|].
  apply elem_of_app in H as [H|H]; [right; left; exact H|].
  right. right. apply elem_of_completion, H.
Qed.

Lemma elem_of_bind_events (new : PyObject) (t : PythonTask) (e : Event) :
  e ∈ bind_events new t → e = EvBirth ∨ e ∈ deliver new "_addTask" t.
Proof.
  unfold bind_events. destruct (negb (is_Py_None new) && is_active t);
    intros H; [|inversion H].
  apply elem_of_cons in H as [->|H]; [left; reflexivity | right; exact H].
Qed.

(** ** The setters *)

Lemma set_function_eq (v : PyObject) (s : Sys) :
  ∃ s', set_function v s = Some (tt, s')
        ∧ task s' = with_function (Some v) (task s)
        ∧ added_trace s s' (if PyCallable_Check v then []
                            else [EvAssert "Invalid function passed to PythonTask"])
        ∧ w_pyerr (world s') = w_pyerr (world s).
Proof.
  unfold set_function. unfold_monad. simpl.
  destruct (PyCallable_Check v); simpl; eexists; (split; [reflexivity|]);
    (split; [reflexivity|]); (split; [|reflexivity]);
    unfold added_trace; simpl; rewrite ?app_nil_r; reflexivity.
Qed.

Lemma set_upon_death_eq (v : PyObject) (s : Sys) :
  ∃ s', set_upon_death v s = Some (tt, s')
        ∧ task s' = with_upon_death (Some v) (task s)
        ∧ added_trace s s'
            (if negb (is_Py_None v) && negb (PyCallable_Check v)
             then [EvAssert "Invalid upon_death function passed to PythonTask"]
             else [])
        ∧ w_pyerr (world s') = w_pyerr (world s).
Proof.
  unfold set_upon_death. unfold_monad. simpl.
  destruct (negb (is_Py_None v) && negb (PyCallable_Check v)); simpl; eexists;
    (split; [reflexivity|]); (split; [reflexivity|]); (split; [|reflexivity]);
    unfold added_trace; simpl; rewrite ?app_nil_r; reflexivity.
Qed.

Lemma PySequence_Tuple_tuple (tr : list Event) (o t : PyObject) :
  PySequence_Tuple tr o = Some t → ∃ items, t = PyTuple items.
Proof.
  unfold PySequence_Tuple.
  destruct o; simpl; try discriminate;
    try (intros [= <-]; eexists; reflexivity).
  destruct (_ || _); [|discriminate].
  destruct (py_iterate tr _); simpl; [|discriminate].
  intros [= <-]. eexists. reflexivity.
Qed.

Lemma set_args_eq (v : PyObject) (append_task : bool) (s : Sys) :
  ∃ s', set_args v append_task s = Some (tt, s')
        ∧ task s' = with_append_task append_task
                      (with_args (Some (PyTuple (template (w_trace (world s)) v)))
                         (task s))
        ∧ added_trace s s' (if valid_args (w_trace (world s)) v then []
                            else [EvAssert "Invalid args passed to PythonTask"])
        ∧ (valid_args (w_trace (world s)) v = true →
           w_pyerr (world s') = w_pyerr (world s)).
Proof.
  unfold set_args, valid_args, template, store_tuple. unfold_monad.
  destruct (is_Py_None v); simpl.
  - eexists. split; [reflexivity|]. split; [reflexivity|].
    split; [unfold added_trace; simpl; rewrite app_nil_r; reflexivity | reflexivity].
  - destruct (PySequence_Check v); simpl.
    + destruct (PySequence_Tuple (w_trace (world s)) v) as [t|] eqn:Et; simpl.
      * destruct (PySequence_Tuple_tuple _ _ _ Et) as [items ->].
        eexists. split; [reflexivity|]. split; [reflexivity|].
        split; [unfold added_trace; simpl; rewrite app_nil_r; reflexivity | reflexivity].
      * eexists. split; [reflexivity|]. split; [reflexivity|].
        split; [reflexivity | discriminate].
    + eexists. split; [reflexivity|]. split; [reflexivity|].
      split; [reflexivity | discriminate].
Qed.

(** ** The attribute methods *)

Lemma setattr_delayTime_eq (v : PyObject) (s : Sys) :
  ∃ s', __setattr__ "delayTime" v s = Some (0, s')
        ∧ added_trace s s' (debug_events (task s) "delayTime" v)
        ∧ match delay_of s v with
          | Some delay =>
              w_pyerr (world s') = w_pyerr (world s)
              ∧ task s' = match w_pyerr (world s) with
                          | None => with_base (set_delay delay (base (task s)))
                                      (task s)
                          | Some _ => task s
                          end
          | None => w_pyerr (world s') = Some (float_error v) ∧ task s' = task s
          end.
Proof.
  unfold __setattr__, delay_of, debug_events. unfold_monad. simpl.
  destruct task_cat_is_debug; simpl; rewrite ?app_nil_r;
    destruct (PyFloat_AsDouble _ v) as [delay|]; simpl;
    try (destruct (w_pyerr (world s)) eqn:Ew; simpl);
    eexists; (split; [reflexivity|]); simpl;
    (split; [unfold added_trace; simpl; rewrite ?app_nil_r; reflexivity|]);
    split; reflexivity || assumption.
Qed.

Lemma setattr_name_eq (v : PyObject) (s : Sys) :
  ∃ s', __setattr__ "name" v s = Some (0, s')
        ∧ added_trace s s' (debug_events (task s) "name" v)
        ∧ match PyString_AsString v with
          | Some name =>
              w_pyerr (world s') = w_pyerr (world s)
              ∧ task s' = with_base (set_name (c_str name) (base (task s)))
                            (task s)
          | None => w_pyerr (world s') = Some PyExc_TypeError ∧ task s' = task s
          end.
Proof.
  unfold __setattr__, debug_events. unfold_monad. simpl.
  destruct task_cat_is_debug, (PyString_AsString v) as [name|]; simpl;
    eexists; (split; [reflexivity|]); simpl;
    (split; [unfold added_trace; simpl; rewrite ?app_nil_r; reflexivity|]);
    split; reflexivity.
Qed.

Lemma setattr_id_eq (v : PyObject) (s : Sys) :
  ∃ s', __setattr__ "id" v s = Some (1, s')
        ∧ task s' = task s
        ∧ added_trace s s' (debug_events (task s) "id" v
                              ++ [EvAssert "Cannot set constant value"])
        ∧ w_pyerr (world s') = w_pyerr (world s).
Proof.
  unfold __setattr__, debug_events. unfold_monad. simpl.
  destruct task_cat_is_debug; simpl;
    eexists; (split; [reflexivity|]); simpl; (split; [reflexivity|]);
    (split; [unfold added_trace; simpl; rewrite <- ?app_assoc; reflexivity|]);
    reflexivity.
Qed.

Lemma not_reserved_eqb (k : string) :
  k ∉ write_reserved →
  String.eqb k "delayTime" = false ∧ String.eqb k "name" = false
  ∧ String.eqb k "id" = false.
Proof.
  intros Hk. unfold write_reserved in Hk.
  repeat split; apply String.eqb_neq; intros ->; apply Hk;
    repeat constructor.
Qed.

Lemma eqb_not_reserved (k : string) :
  String.eqb k "delayTime" = false → String.eqb k "name" = false →
  String.eqb k "id" = false → k ∉ write_reserved.
Proof.
  intros H1 H2 H3 Hin. unfold write_reserved in Hin.
  repeat (apply elem_of_cons in Hin as [->|Hin]; [discriminate|]).
  inversion Hin.
Qed.

Lemma setattr_other_eq (k : string) (v : PyObject) (s : Sys) :
  k ∉ write_reserved →
  ∃ s', __setattr__ k v s = Some (0, s')
        ∧ task s' = with_dict (<[c_str k := v]> (_dict (task s))) (task s)
        ∧ added_trace s s' (debug_events (task s) k v)
        ∧ w_pyerr (world s') = w_pyerr (world s).
Proof.
  intros Hk. destruct (not_reserved_eqb k Hk) as (E1 & E2 & E3).
  unfold __setattr__, debug_events. unfold_monad. rewrite E1, E2, E3.
  destruct task_cat_is_debug; simpl;
    eexists; (split; [reflexivity|]); simpl; (split; [reflexivity|]);
    (split; [unfold added_trace; simpl; rewrite ?app_nil_r; reflexivity|]);
    reflexivity.
Qed.

Lemma write_reserved_cases (k : string) :
  k ∈ write_reserved → k = "delayTime" ∨ k = "name" ∨ k = "id".
Proof.
  unfold write_reserved. intros H.
  repeat (apply elem_of_cons in H as [->|H]; [tauto|]). inversion H.
Qed.

Lemma delattr_eq (k : string) (s : Sys) :
  ∃ r s', __delattr__ k s = Some (r, s')
          ∧ w_trace (world s') = w_trace (world s)
          ∧ match _dict (task s) !! c_str k with
            | Some _ => r = 0 ∧ w_pyerr (world s') = w_pyerr (world s)
                        ∧ task s' = with_dict (delete (c_str k) (_dict (task s)))
                                      (task s)
            | None => r = -1 ∧ w_pyerr (world s') = Some PyExc_KeyError
                      ∧ task s' = task s
            end.
Proof.
  unfold __delattr__. unfold_monad.
  destruct (_dict (task s) !! c_str k); simpl; eexists _, _;
    (split; [reflexivity|]); simpl; (split; [reflexivity|]);
    repeat split; reflexivity.
Qed.

Lemma getattr_eq (k : string) (s : Sys) :
  ∃ r s', __getattr__ k s = Some (r, s')
          ∧ task s' = task s
          ∧ w_trace (world s') = w_trace (world s)
          ∧ match typed_value (task s) k with
            | Some v => r = Some v ∧ s' = s
            | None =>
                r = _dict (task s) !! c_str k
                ∧ w_pyerr (world s') = match r with
                                       | Some _ => w_pyerr (world s)
                                       | None => Some PyExc_KeyError
                                       end
            end.
Proof.
  unfold __getattr__, typed_value. unfold_monad.
  repeat (destruct (String.eqb k _);
          [eexists _, s; repeat split; reflexivity|]).
  destruct (_dict (task s) !! c_str k); simpl; eexists _, _;
    (split; [reflexivity|]); repeat split; reflexivity.
Qed.

(** ** Running the task *)

Lemma do_task_eq (s : Sys) (f : PyObject) (items : list PyObject) :
  _function (task s) = Some f → _args (task s) = Some (PyTuple items) →
  ∃ s', do_task s
        = Some (fst (interpret (task s)
                       (work_result s f (call_args (task s) items))), s')
        ∧ task s' = task s
        ∧ added_trace s s'
            (EvCall f (call_args (task s) items)
               :: snd (interpret (task s)
                         (work_result s f (call_args (task s) items))))
        ∧ w_pyerr (world s')
          = match work_result s f (call_args (task s) items) with
            | Some _ => w_pyerr (world s)
            | None => Some PyExc_Raised
            end.
Proof.
  intros Hf Ha. unfold do_task.
  rewrite (bind_eq _ _ _ _ _ (get_args_eq s items Ha)).
  unfold call_python_func, PyObject_CallObject, interpret, work_result.
  unfold_monad. rewrite Hf.
  destruct (if PyCallable_Check f
            then py_call (w_trace (world s)) f (call_args (task s) items)
            else None) as [r|]; simpl.
  - destruct r; simpl;
      try (destruct (switch_retval (int_of_long n)); simpl);
      eexists; (split; [reflexivity|]); simpl; (split; [reflexivity|]);
      (split; [unfold added_trace; simpl; rewrite <- ?app_assoc; reflexivity|]);
      reflexivity.
  - eexists; (split; [reflexivity|]); simpl; (split; [reflexivity|]).
    split; [unfold added_trace; simpl; rewrite <- ?app_assoc; reflexivity|].
    reflexivity.
Qed.

(** ** What every operation keeps *)

Lemma keeps_refl (plain : bool) (t : PythonTask) : keeps plain t t.
Proof.
  split; [exact (λ H, H)|]. split; [reflexivity | exact (λ _ H, H)].
Qed.

Lemma keeps_trans (p1 p2 : bool) (t1 t2 t3 : PythonTask) :
  keeps p1 t1 t2 → keeps p2 t2 t3 → keeps (p1 && p2) t1 t3.
Proof.
  intros (W1 & I1 & R1) (W2 & I2 & R2).
  split; [auto|]. split; [congruence|].
  intros Hp. apply andb_true_iff in Hp as [H1 H2]. auto.
Qed.

(** A change that leaves the dictionary alone. *)
Lemma keeps_fields (plain : bool) (t t' : PythonTask) :
  (well_formed t → well_formed t') →
  _task_id (base t') = _task_id (base t) → _dict t' = _dict t →
  keeps plain t t'.
Proof.
  intros Hwf Hid Hd. split; [exact Hwf|]. split; [exact Hid|].
  intros _ Hfree k Hk. rewrite Hd. exact (Hfree k Hk).
Qed.

Lemma keeps_with_function (plain : bool) (v : PyObject) (t : PythonTask) :
  keeps plain t (with_function (Some v) t).
Proof.
  apply keeps_fields; [|reflexivity..].
  intros [? ? ? ?]; constructor; simpl; eauto.
Qed.

Lemma keeps_with_upon_death (plain : bool) (v : PyObject) (t : PythonTask) :
  keeps plain t (with_upon_death (Some v) t).
Proof.
  apply keeps_fields; [|reflexivity..].
  intros [? ? ? ?]; constructor; simpl; eauto.
Qed.

Lemma keeps_with_owner (plain : bool) (v : PyObject) (t : PythonTask) :
  keeps plain t (with_owner (Some v) t).
Proof.
  apply keeps_fields; [|reflexivity..].
  intros [? ? ? ?]; constructor; simpl; eauto.
Qed.

Lemma keeps_with_args (plain : bool) (items : list PyObject) (b : bool)
    (t : PythonTask) :
  keeps plain t (with_append_task b (with_args (Some (PyTuple items)) t)).
Proof.
  apply keeps_fields; [|reflexivity..].
  intros [? ? ? ?]; constructor; simpl; eauto.
Qed.

Lemma keeps_with_base (plain : bool) (b : AsyncTask) (t : PythonTask) :
  _task_id b = _task_id (base t) → keeps plain t (with_base b t).
Proof.
  intros Hid. apply keeps_fields; [|exact Hid|reflexivity].
  intros [? ? ? ?]; constructor; simpl; eauto.
Qed.

Lemma keeps_insert (k : string) (v : PyObject) (t : PythonTask) :
  k ∉ write_reserved →
  keeps (nul_free k) t (with_dict (<[c_str k := v]> (_dict t)) t).
Proof.
  intros Hk. split; [|split; [reflexivity|]].
  - intros [? ? ? ?]. constructor; simpl; eauto.
  - intros Hp Hd r Hr. simpl. apply String.eqb_eq in Hp. rewrite Hp.
    rewrite lookup_insert_ne; [apply Hd, Hr|].
    intros ->. exact (Hk Hr).
Qed.

Lemma keeps_delete (plain : bool) (k : string) (t : PythonTask) :
  keeps plain t (with_dict (delete k (_dict t)) t).
Proof.
  split; [|split; [reflexivity|]].
  - intros [? ? ? ?]. constructor; simpl; eauto.
  - intros _ Hd r Hr. simpl. destruct (decide (k = r)) as [->|Hne].
    + apply lookup_delete_eq.
    + rewrite lookup_delete_ne; [apply Hd, Hr | exact Hne].
Qed.

Lemma setattr_keeps (k : string) (v : PyObject) (s : Sys) :
  ∃ r s', __setattr__ k v s = Some (r, s')
          ∧ keeps (nul_free k) (task s) (task s').
Proof.
  destruct (decide (k ∈ write_reserved)) as [Hin|Hout].
  - apply write_reserved_cases in Hin as [->|[->| ->]].
    + destruct (setattr_delayTime_eq v s) as (s' & E & _ & H).
      exists 0, s'. split; [exact E|].
      destruct (delay_of s v) as [delay|]; destruct H as [_ ->];
        [|apply keeps_refl].
      destruct (w_pyerr (world s)); [apply keeps_refl|].
      apply keeps_with_base. reflexivity.
    + destruct (setattr_name_eq v s) as (s' & E & _ & H).
      exists 0, s'. split; [exact E|].
      destruct (PyString_AsString v) as [name|]; destruct H as [_ ->];
        [|apply keeps_refl].
      apply keeps_with_base. reflexivity.
    + destruct (setattr_id_eq v s) as (s' & E & T & _).
      exists 1, s'. split; [exact E | rewrite T; apply keeps_refl].
  - destruct (setattr_other_eq k v s Hout) as (s' & E & T & _).
    exists 0, s'. split; [exact E | rewrite T; apply keeps_insert, Hout].
Qed.

Lemma step_keeps (op : Op) (s : Sys) :
  well_formed (task s) →
  ∃ s', step op s = Some (tt, s') ∧ keeps (plain_op op) (task s) (task s').
Proof.
  intros Hwf.
  destruct (wf_function _ Hwf) as [f Hf], (wf_args _ Hwf) as [items Ha],
    (wf_upon_death _ Hwf) as [cb Hc], (wf_owner _ Hwf) as [own Ho].
  destruct op; simpl.
  - destruct (set_function_eq function s) as (s' & E & T & _).
    exists s'. split; [exact E | rewrite T; apply keeps_with_function].
  - destruct (set_args_eq args append_task s) as (s' & E & T & _).
    exists s'. split; [exact E | rewrite T; apply keeps_with_args].
  - destruct (set_upon_death_eq upon_death0 s) as (s' & E & T & _).
    exists s'. split; [exact E | rewrite T; apply keeps_with_upon_death].
  - destruct (set_owner_eq own cb owner s Ho Hc) as (s' & E & T & _).
    exists s'. split; [exact E | rewrite T; apply keeps_with_owner].
  - destruct (setattr_keeps attr_name v s) as (r & s' & E & K).
    exists s'. unfold discard. rewrite (bind_eq _ _ _ _ _ E).
    split; [reflexivity | exact K].
  - destruct (delattr_eq attr_name s) as (r & s' & E & _ & H).
    exists s'. unfold discard. rewrite (bind_eq _ _ _ _ _ E).
    split; [reflexivity|].
    destruct (_dict (task s) !! c_str attr_name); destruct H as (_ & _ & ->);
      [apply keeps_delete | apply keeps_refl].
  - destruct (getattr_eq attr_name s) as (r & s' & E & T & _).
    exists s'. unfold discard. rewrite (bind_eq _ _ _ _ _ E).
    split; [reflexivity | rewrite T; apply keeps_refl].
  - destruct (do_task_eq s f items Hf Ha) as (s' & E & T & _).
    exists s'. unfold discard. rewrite (bind_eq _ _ _ _ _ E).
    split; [reflexivity | rewrite T; apply keeps_refl].
  - destruct (is_active (task s)) eqn:Hi.
    + exists s. unfold activate. unfold bind, get_task. rewrite Hi.
      split; [reflexivity | apply keeps_refl].
    + destruct (activate_eq own s Ho Hi) as (s' & E & T & _).
      exists s'. split; [exact E | rewrite T; apply keeps_with_base; reflexivity].
  - destruct (is_active (task s)) eqn:Hi.
    + destruct (deactivate_eq clean_exit own cb s Ho Hc Hi) as (s' & E & T & _).
      exists s'. split; [exact E | rewrite T; apply keeps_with_base; reflexivity].
    + exists s. unfold deactivate. unfold bind, get_task. rewrite Hi.
      split; [reflexivity | apply keeps_refl].
Qed.

Lemma run_ops_keeps (ops : list Op) :
  ∀ s, well_formed (task s) →
       ∃ s', run_ops ops s = Some (tt, s')
             ∧ keeps (forallb plain_op ops) (task s) (task s').
Proof.
  induction ops as [|op ops IH]; intros s Hwf; simpl.
  - exists s. split; [reflexivity | apply keeps_refl].
  - destruct (step_keeps op s Hwf) as (s1 & E1 & K1).
    destruct (IH s1 (proj1 K1 Hwf)) as (s2 & E2 & K2).
    exists s2. rewrite (bind_eq _ _ _ _ _ E1).
    split; [exact E2 | exact (keeps_trans _ _ _ _ _ K1 K2)].
Qed.

Lemma switch_retval_done (z : Z) : z = 0 ∨ z = -1 → switch_retval z = Some DS_done.
Proof. intros [-> | ->]; reflexivity. Qed.

Lemma switch_retval_default (z : Z) :
  z ∉ [0; 1; 2; -1] → switch_retval z = None.
Proof.
  intros Hz. unfold switch_retval. simpl.
  destruct (Z.eqb_spec z 0) as [->|_]; [exfalso; apply Hz; set_solver|].
  destruct (Z.eqb_spec z 1) as [->|_]; [exfalso; apply Hz; set_solver|].
  destruct (Z.eqb_spec z 2) as [->|_]; [exfalso; apply Hz; set_solver|].
  destruct (Z.eqb_spec z (-1)) as [->|_]; [exfalso; apply Hz; set_solver|].
  reflexivity.
Qed.

Lemma calls_interpret (t : PythonTask) (result : PyPtr) :
  calls (snd (interpret t result)) = [].
Proof.
  unfold interpret. destruct result as [r|]; [|reflexivity].
  destruct r; try reflexivity.
  destruct (switch_retval (int_of_long n)); reflexivity.
Qed.

(** ** Repeated runs *)

Lemma calls_app (e1 e2 : list Event) : calls (e1 ++ e2) = calls e1 ++ calls e2.
Proof. apply List.filter_app. Qed.

Lemma run_times_eq (f : PyObject) (items : list PyObject) (n : nat) :
  ∀ s, _function (task s) = Some f → _args (task s) = Some (PyTuple items) →
       ∃ ds s' evs,
         run_times n s = Some (ds, s') ∧ length ds = n ∧ task s' = task s
         ∧ added_trace s s' evs
         ∧ calls evs = replicate n (EvCall f (call_args (task s) items)).
Proof.
  induction n as [|n IH]; intros s Hf Ha; simpl.
  - exists [], s, []. split; [reflexivity|]. split; [reflexivity|].
    split; [reflexivity|]. split; [apply added_trace_nil | reflexivity].
  - destruct (do_task_eq s f items Hf Ha) as (s1 & E1 & T1 & A1 & _).
    destruct (IH s1) as (ds & s2 & evs & E2 & L2 & T2 & A2 & C2);
      [rewrite T1; exact Hf | rewrite T1; exact Ha |].
    eexists (_ :: ds), s2, _.
    split; [rewrite (bind_eq _ _ _ _ _ E1), (bind_eq _ _ _ _ _ E2); reflexivity|].
    split; [simpl; rewrite L2; reflexivity|].
    split; [congruence|].
    split; [exact (added_trace_app _ _ _ _ _ A1 A2)|].
    rewrite calls_app. simpl. rewrite calls_interpret. simpl.
    rewrite C2, T1. reflexivity.
Qed.

Lemma typed_value_reserved (t : PythonTask) (k : string) :
  k ∈ read_reserved → ∃ v, typed_value t k = Some v.
Proof.
  unfold read_reserved. intros H.
  repeat (apply elem_of_cons in H as [->|H]; [eexists; reflexivity|]).
  inversion H.
Qed.

Lemma getattr_reserved (s : Sys) (k : string) (v : PyObject) :
  typed_value (task s) k = Some v → __getattr__ k s = Some (Some v, s).
Proof.
  intros Hv. destruct (getattr_eq k s) as (r & s' & E & _ & _ & H).
  rewrite Hv in H. destruct H as [-> ->]. exact E.
Qed.

(** ** Construction *)

Lemma PythonTask_new_eq (function : PyObject) (name : string) (id : Z) (w : World) :
  PythonTask_new function name id w
  = Some (tt,
          mkSys (mkPythonTask (AsyncTask_new name id) (Some function)
                   (Some (PyTuple [])) true (Some Py_None) (Some Py_None) ∅)
            (mkWorld (w_trace w
                        ++ (if PyCallable_Check function then []
                            else [EvAssert "Invalid function passed to PythonTask"]))
               (w_pyerr w))).
Proof.
  unfold PythonTask_new, PythonTask_body, set_function, set_args,
    set_upon_death, set_owner.
  unfold_monad. simpl.
  destruct (PyCallable_Check function); simpl; rewrite ?app_nil_r;
    destruct w; reflexivity.
Qed.

Lemma PythonTask_new_well_formed
    (function : PyObject) (name : string) (id : Z) (w : World) :
  ∃ s, PythonTask_new function name id w = Some (tt, s)
       ∧ well_formed (task s) ∧ reserved_free (task s)
       ∧ _task_id (base (task s)) = id.
Proof.
  eexists. split; [apply PythonTask_new_eq|]. simpl.
  split; [constructor; simpl; eauto|].
  split; [intros k _; apply lookup_empty | reflexivity].
Qed.

(** No sequence of operations on a constructed task dereferences a NULL
    pointer or changes the identifier; as long as no attribute name written
    contains a NUL character, none puts a name __setattr__ reserves into the
    dictionary. *)
Lemma constructed_task_safe
    (function : PyObject) (name : string) (id : Z) (w : World) (ops : list Op) :
  ∃ s s', PythonTask_new function name id w = Some (tt, s)
          ∧ run_ops ops s = Some (tt, s')
          ∧ well_formed (task s')
          ∧ (forallb plain_op ops = true → reserved_free (task s'))
          ∧ _task_id (base (task s')) = id.
Proof.
  destruct (PythonTask_new_well_formed function name id w)
    as (s & E & Hwf & Hfree & Hid).
  destruct (run_ops_keeps ops s Hwf) as (s' & E' & Kwf & Kid & Kfree).
  exists s, s'. split; [exact E|]. split; [exact E'|].
  split; [exact (Kwf Hwf)|].
  split; [exact (λ Hp, Kfree Hp Hfree) | congruence].
Qed.

(** ** C strings *)

Lemma c_str_idemp (k : string) : c_str (c_str k) = c_str k.
Proof.
  induction k as [|c k IH]; simpl; [reflexivity|].
  destruct (Ascii.eqb c Ascii.zero) eqn:Hc; simpl; [reflexivity|].
  rewrite Hc, IH. reflexivity.
Qed.

Lemma nul_free_c_str (k : string) : nul_free k = true → c_str k = k.
Proof. apply String.eqb_eq. Qed.

(** * The claims *)

(** C1 (as amended): at the death hook, and so at every transition from
    Active to Inactive, the owner's _clearTask notification is delivered
    first and the completion callback is invoked after it; the task itself
    is the sole argument of both calls. *)
Theorem death_hook_clears_then_completes
    (s : Sys) (clean_exit : bool) (owner cb : PyObject) :
  _owner (task s) = Some owner → _upon_death (task s) = Some cb →
  (∃ s', upon_death clean_exit s = Some (tt, s') ∧ task s' = task s
         ∧ added_trace s s' (EvDeath clean_exit
                               :: deliver owner "_clearTask" (task s)
                               ++ completion cb (task s)))
  ∧ (is_active (task s) = true →
     ∃ s', deactivate clean_exit s = Some (tt, s')
           ∧ is_active (task s') = false
           ∧ added_trace s s' (EvDeath clean_exit
                                 :: deliver owner "_clearTask" (task s)
                                 ++ completion cb (task s))
           ∧ ∀ func, PyObject_GetAttrString owner "_clearTask" = Some func →
                     is_Py_None cb = false →
               added_trace s s' [EvDeath clean_exit;
                                 EvCall func [self_ref (task s)];
                                 EvCall cb [self_ref (task s)]]
               ∧ precedes (EvCall func [self_ref (task s)])
                          (EvCall cb [self_ref (task s)])
                          (w_trace (world s'))).
Proof.
  intros Ho Hc. split; [apply upon_death_eq; assumption|].
  intros Hi.
  destruct (deactivate_eq clean_exit owner cb s Ho Hc Hi) as (s' & E & T & A).
  exists s'. split; [exact E|]. split; [rewrite T; reflexivity|].
  split; [exact A|].
  intros func Hg Hn.
  assert (added_trace s s' [EvDeath clean_exit;
                            EvCall func [self_ref (task s)];
                            EvCall cb [self_ref (task s)]]) as A'.
  { unfold deliver, completion in A. rewrite Hg, Hn in A.
    destruct (is_Py_None owner) eqn:En; [|exact A].
    destruct owner; discriminate. }
  split; [exact A'|].
  rewrite A'. exists (w_trace (world s) ++ [EvDeath clean_exit]), [], [].
  rewrite <- app_assoc. reflexivity.
Qed.

(** C2 (the code at the failing input): rebinding the owner of an Active
    task that has an owner runs the whole death hook, so the completion
    callback is invoked although the task stays Active. *)
Theorem set_owner_fires_completion_callback (s : Sys) (old cb new : PyObject) :
  _owner (task s) = Some old → _upon_death (task s) = Some cb →
  is_Py_None old = false → is_Py_None cb = false →
  is_active (task s) = true →
  ∃ s' evs, set_owner new s = Some (tt, s')
            ∧ is_active (task s') = true
            ∧ added_trace s s' evs
            ∧ precedes (EvDeath false) (EvCall cb [self_ref (task s)]) evs.
Proof.
  intros Ho Hc Hn Hcb Hi.
  destruct (set_owner_eq old cb new s Ho Hc) as (s' & E & T & A).
  eexists s', _. split; [exact E|]. split; [rewrite T; exact Hi|].
  split; [exact A|].
  unfold unbind_events, completion. rewrite Hn, Hi, Hcb. simpl.
  exists [], (deliver old "_clearTask" (task s)), (bind_events new (task s)).
  simpl. rewrite <- app_assoc. reflexivity.
Qed.

(** C3 (as amended): __setattr__ intercepts the names delayTime, name and
    id: a write of one of them leaves the dictionary as it was, and every
    write of id fails, returning non-zero with the assertion raised and the
    task unchanged.  __getattr__ intercepts the names time, done, cont,
    again, name and id: a read of one of them gives its typed value
    whatever the dictionary holds.  Over any sequence of operations on a
    well-formed task in which no attribute name written contains a NUL
    character, delayTime, name and id never become keys of the
    dictionary. *)
Theorem reserved_names_intercepted :
  (∀ s k v, k ∈ write_reserved →
     ∃ r s', __setattr__ k v s = Some (r, s')
             ∧ _dict (task s') = _dict (task s))
  ∧ (∀ s v, ∃ s', __setattr__ "id" v s = Some (1, s')
                  ∧ task s' = task s
                  ∧ last (w_trace (world s'))
                    = Some (EvAssert "Cannot set constant value"))
  ∧ (∀ s k, k ∈ read_reserved →
       ∃ v, typed_value (task s) k = Some v
            ∧ __getattr__ k s = Some (Some v, s)
            ∧ ∀ d, __getattr__ k (mkSys (with_dict d (task s)) (world s))
                   = Some (Some v, mkSys (with_dict d (task s)) (world s)))
  ∧ (∀ s ops, well_formed (task s) → reserved_free (task s) →
       forallb plain_op ops = true →
       ∃ s', run_ops ops s = Some (tt, s') ∧ reserved_free (task s')).
Proof.
  split; [|split; [|split]].
  - intros s k v Hk. apply write_reserved_cases in Hk as [->|[->| ->]].
    + destruct (setattr_delayTime_eq v s) as (s' & E & _ & H).
      exists 0, s'. split; [exact E|].
      destruct (delay_of s v); destruct H as [_ ->]; [|reflexivity].
      destruct (w_pyerr (world s)); reflexivity.
    + destruct (setattr_name_eq v s) as (s' & E & _ & H).
      exists 0, s'. split; [exact E|].
      destruct (PyString_AsString v); destruct H as [_ ->]; reflexivity.
    + destruct (setattr_id_eq v s) as (s' & E & T & _).
      exists 1, s'. split; [exact E | rewrite T; reflexivity].
  - intros s v. destruct (setattr_id_eq v s) as (s' & E & T & A & _).
    exists s'. split; [exact E|]. split; [exact T|].
    rewrite A, app_assoc. apply last_snoc.
  - intros s k Hk. destruct (typed_value_reserved (task s) k Hk) as [v Hv].
    exists v. split; [exact Hv|]. split; [apply getattr_reserved, Hv|].
    intros d. apply getattr_reserved. exact Hv.
  - intros s ops Hwf Hfree Hplain.
    destruct (run_ops_keeps ops s Hwf) as (s' & E & _ & _ & K).
    exists s'. split; [exact E | exact (K Hplain Hfree)].
Qed.

(** C4 (as amended): do_task maps the outcome of the work callable to a
    directive as follows.  The no-value sentinel gives Done; the integer 0,
    the Done code itself, gives Done, 1 gives Continue, 2 gives Again and
    the legacy -1 gives Done; any other value that is not an integer, and
    any other integer that a C int holds, gives Abort with an assertion
    raised whose message is the task, by type and name, followed by
    " returned " and the rendering of the value; a callable that raises
    gives Abort with an error line logged, no assertion raised, and do_task
    returning normally. *)
Theorem do_task_directive (s : Sys) (f : PyObject) (items : list PyObject) :
  _function (task s) = Some f → _args (task s) = Some (PyTuple items) →
  ∃ d s' diag,
    do_task s = Some (d, s') ∧ task s' = task s
    ∧ added_trace s s' (EvCall f (call_args (task s) items) :: diag)
    ∧ ∀ result, result = work_result s f (call_args (task s) items) →
        (result = Some Py_None → d = DS_done ∧ diag = [])
        ∧ (result = Some (PyInt 0) → d = DS_done ∧ diag = [])
        ∧ (result = Some (PyInt 1) → d = DS_cont ∧ diag = [])
        ∧ (result = Some (PyInt 2) → d = DS_again ∧ diag = [])
        ∧ (result = Some (PyInt (-1)) → d = DS_done ∧ diag = [])
        ∧ (∀ r, result = Some r →
             r ∉ [Py_None; PyInt 0; PyInt 1; PyInt 2; PyInt (-1)] →
             (∀ n, r = PyInt n → in_int_range n = true) →
             d = DS_abort
             ∧ diag = [EvAssert (output (base (task s)) +:+ " returned "
                                 +:+ PyObject_Repr r)])
        ∧ (result = None →
             d = DS_abort
             ∧ diag = [EvError ("Exception occurred in "
                                +:+ output (base (task s)) +:+ nl)]).
Proof.
  intros Hf Ha.
  destruct (do_task_eq s f items Hf Ha) as (s' & E & T & A & _).
  eexists _, s', _. split; [exact E|]. split; [exact T|]. split; [exact A|].
  intros result ->.
  destruct (work_result s f (call_args (task s) items)) as [r|]; simpl.
  - split; [intros [= ->]; split; reflexivity|].
    split; [intros [= ->]; split; reflexivity|].
    split; [intros [= ->]; split; reflexivity|].
    split; [intros [= ->]; split; reflexivity|].
    split; [intros [= ->]; split; reflexivity|].
    split; [|discriminate].
    intros r' [= <-] Hother Hint.
    destruct r; try (split; reflexivity).
    + exfalso. apply Hother. set_solver.
    + unfold int_of_long. rewrite (Hint n eq_refl).
      rewrite switch_retval_default; [split; reflexivity|].
      intros Hn. apply Hother.
      repeat (apply elem_of_cons in Hn as [->|Hn]; [set_solver|]).
      inversion Hn.
  - repeat (split; [discriminate|]).
    intros _. split; reflexivity.
Qed.

(** C5 (as amended): set_owner on a task with a non-none owner that is
    Active first delivers "cleared" to the old owner, through the death hook
    called with clean_exit false; it then replaces the owner reference; it
    then, when the new owner is not none and the task is Active, delivers
    "added" to the new owner.  Between the two notifications lie only the
    events of the death hook's call of the completion callback.  When the
    new owner is another object than the old one, the notifications of the
    rebinding call no _addTask method of the old owner and no _clearTask
    method of the new owner. *)
Theorem set_owner_clears_old_then_adds_new (s : Sys) (old cb new : PyObject) :
  _owner (task s) = Some old → _upon_death (task s) = Some cb →
  ∃ s' cleared mid added,
    set_owner new s = Some (tt, s')
    ∧ task s' = with_owner (Some new) (task s)
    ∧ added_trace s s' (cleared ++ mid ++ added)
    ∧ cleared = (if negb (is_Py_None old) && is_active (task s)
                 then EvDeath false :: deliver old "_clearTask" (task s)
                 else [])
    ∧ mid = (if negb (is_Py_None old) && is_active (task s)
             then completion cb (task s)
             else [])
    ∧ added = (if negb (is_Py_None new) && is_active (task s)
               then EvBirth :: deliver new "_addTask" (task s)
               else [])
    ∧ (∀ oid attrs args,
         old = PyInstance oid attrs → (∀ attrs', new ≠ PyInstance oid attrs') →
         EvCall (PyBoundMethod oid "_addTask") args ∉ cleared ++ added)
    ∧ (∀ oid attrs args,
         new = PyInstance oid attrs → (∀ attrs', old ≠ PyInstance oid attrs') →
         EvCall (PyBoundMethod oid "_clearTask") args ∉ cleared ++ added).
Proof.
  intros Ho Hc.
  destruct (set_owner_eq old cb new s Ho Hc) as (s' & E & T & A).
  eexists s', _, _, _.
  split; [exact E|]. split; [exact T|].
  split; [|split; [reflexivity|split; [reflexivity|split; [reflexivity|]]]].
  { unfold added_trace in *. rewrite A. unfold unbind_events, bind_events.
    destruct (negb (is_Py_None old) && is_active (task s)); simpl;
      rewrite <- ?app_assoc; reflexivity. }
  fold (bind_events new (task s)).
  assert (∀ e, e ∈ (if negb (is_Py_None old) && is_active (task s)
                    then EvDeath false :: deliver old "_clearTask" (task s)
                    else []) →
               e = EvDeath false ∨ e ∈ deliver old "_clearTask" (task s))
    as Hcl.
  { intros e. destruct (negb (is_Py_None old) && is_active (task s));
      intros H; [|inversion H].
    apply elem_of_cons in H as [->|H]; [left; reflexivity | right; exact H]. }
  split; intros oid attrs args -> Hother Hin;
    apply elem_of_app in Hin as [Hin|Hin].
  - apply Hcl in Hin as [Hin|Hin]; [discriminate|].
    apply elem_of_deliver in Hin as [(o' & a' & _ & Hin)|[msg Hin]];
      discriminate.
  - apply elem_of_bind_events in Hin as [Hin|Hin]; [discriminate|].
    apply elem_of_deliver in Hin as [(o' & a' & -> & Hin)|[msg Hin]];
      [|discriminate].
    injection Hin as <- _. exact (Hother a' eq_refl).
  - apply Hcl in Hin as [Hin|Hin]; [discriminate|].
    apply elem_of_deliver in Hin as [(o' & a' & -> & Hin)|[msg Hin]];
      [|discriminate].
    injection Hin as <- _. exact (Hother a' eq_refl).
  - apply elem_of_bind_events in Hin as [Hin|Hin]; [discriminate|].
    apply elem_of_deliver in Hin as [(o' & a' & _ & Hin)|[msg Hin]];
      discriminate.
Qed.


(** C7 (as amended): writing delayTime with a value that PyFloat_AsDouble
    does not convert to a number leaves the error of the conversion
    pending, TypeError for a built-in value that is no number, and the
    task unchanged; writing any name other than delayTime, name and id, delay
    among them, inserts or overwrites it in the dictionary, under the name
    up to its first NUL character. *)
Theorem setattr_delayTime_and_dict (s : Sys) (v : PyObject) :
  (delay_of s v = None →
     ∃ s', __setattr__ "delayTime" v s = Some (0, s')
           ∧ task s' = task s
           ∧ w_pyerr (world s') = Some (float_error v))
  ∧ (∀ k, k ∉ write_reserved →
       ∃ s', __setattr__ k v s = Some (0, s')
             ∧ task s' = with_dict (<[c_str k := v]> (_dict (task s))) (task s)
             ∧ _dict (task s') !! c_str k = Some v
             ∧ w_pyerr (world s') = w_pyerr (world s))
  ∧ "delay" ∉ write_reserved.
Proof.
  split; [|split].
  - intros Hv. destruct (setattr_delayTime_eq v s) as (s' & E & _ & H).
    rewrite Hv in H. destruct H as [He Ht].
    exists s'. repeat split; assumption.
  - intros k Hk. destruct (setattr_other_eq k v s Hk) as (s' & E & T & _ & P).
    exists s'. split; [exact E|]. split; [exact T|]. split; [|exact P].
    rewrite T. simpl. apply lookup_insert_eq.
  - apply eqb_not_reserved; reflexivity.
Qed.

(** C8: with the append flag set, every run builds its argument sequence
    afresh, the stored items followed by the task itself, and leaves the
    stored tuple as it was: over any number of consecutive runs each call
    of the work callable has those same arguments.  After set_args(None,
    true) that is the task alone, after set_args([7, 8], true) it is 7, 8
    and the task. *)
Theorem appended_task_args_rebuilt (s : Sys) (f : PyObject) (n : nat) :
  _function (task s) = Some f →
  (∀ items, _args (task s) = Some (PyTuple items) →
            _append_task (task s) = true →
     ∃ ds s' evs,
       run_times n s = Some (ds, s') ∧ length ds = n
       ∧ _args (task s') = Some (PyTuple items)
       ∧ added_trace s s' evs
       ∧ calls evs = replicate n (EvCall f (items ++ [self_ref (task s)])))
  ∧ (∃ ds s' evs,
       bind (set_args Py_None true) (λ _, run_times n) s = Some (ds, s')
       ∧ _args (task s') = Some (PyTuple [])
       ∧ added_trace s s' evs
       ∧ calls evs = replicate n (EvCall f [self_ref (task s)]))
  ∧ (∃ ds s' evs,
       bind (set_args (PyList [PyInt 7; PyInt 8]) true) (λ _, run_times n) s
       = Some (ds, s')
       ∧ _args (task s') = Some (PyTuple [PyInt 7; PyInt 8])
       ∧ added_trace s s' evs
       ∧ calls evs
         = replicate n (EvCall f [PyInt 7; PyInt 8; self_ref (task s)])).
Proof.
  intros Hf. split; [|split].
  - intros items Ha Hap.
    destruct (run_times_eq f items n s Hf Ha)
      as (ds & s' & evs & E & L & T & A & C).
    exists ds, s', evs. split; [exact E|]. split; [exact L|].
    split; [rewrite T; exact Ha|]. split; [exact A|].
    rewrite C. unfold call_args. rewrite Hap. reflexivity.
  - destruct (set_args_eq Py_None true s) as (s1 & E1 & T1 & A1 & _).
    destruct (run_times_eq f [] n s1)
      as (ds & s' & evs & E & L & T & A & C); [rewrite T1; exact Hf | rewrite T1; reflexivity |].
    exists ds, s', evs. split; [rewrite (bind_eq _ _ _ _ _ E1); exact E|].
    split; [rewrite T, T1; reflexivity|].
    split; [exact (added_trace_app _ _ _ _ _ A1 A)|].
    rewrite C, T1. reflexivity.
  - destruct (set_args_eq (PyList [PyInt 7; PyInt 8]) true s)
      as (s1 & E1 & T1 & A1 & _).
    destruct (run_times_eq f [PyInt 7; PyInt 8] n s1)
      as (ds & s' & evs & E & L & T & A & C); [rewrite T1; exact Hf | rewrite T1; reflexivity |].
    exists ds, s', evs. split; [rewrite (bind_eq _ _ _ _ _ E1); exact E|].
    split; [rewrite T, T1; reflexivity|].
    split; [exact (added_trace_app _ _ _ _ _ A1 A)|].
    rewrite C, T1. reflexivity.
Qed.

(** C9: over any sequence of operations on a well-formed task, set_owner,
    set_args, set_function and runs among them, the identifier stays the
    same and reading id gives it, before and after; every write of id
    fails, with the assertion "Cannot set constant value" raised and the
    task unchanged. *)
Theorem task_id_stable (s : Sys) (ops : list Op) :
  well_formed (task s) →
  ∃ s', run_ops ops s = Some (tt, s')
        ∧ _task_id (base (task s')) = _task_id (base (task s))
        ∧ __getattr__ "id" s = Some (Some (PyInt (_task_id (base (task s)))), s)
        ∧ __getattr__ "id" s' = Some (Some (PyInt (_task_id (base (task s)))), s')
        ∧ ∀ v, ∃ s'', __setattr__ "id" v s' = Some (1, s'')
                      ∧ task s'' = task s'
                      ∧ last (w_trace (world s''))
                        = Some (EvAssert "Cannot set constant value").
Proof.
  intros Hwf. destruct (run_ops_keeps ops s Hwf) as (s' & E & _ & Hid & _).
  exists s'. split; [exact E|]. split; [exact Hid|].
  split; [apply getattr_reserved; reflexivity|].
  split; [rewrite <- Hid; apply getattr_reserved; reflexivity|].
  intros v. destruct (setattr_id_eq v s') as (s'' & E' & T & A & _).
  exists s''. split; [exact E'|]. split; [exact T|].
  rewrite A, app_assoc. apply last_snoc.
Qed.


(** * Further properties of the methods *)

(** ** Arguments *)

(** X1: get_args returns a tuple of the stored items, followed by the task
    itself when the append flag is set and nothing else, so one item
    longer; without the flag it returns the stored items as they are.  It
    changes neither the task nor the world. *)
Theorem get_args_items (s : Sys) (items : list PyObject) :
  _args (task s) = Some (PyTuple items) →
  ∃ r, get_args s = Some (PyTuple r, s)
       ∧ (_append_task (task s) = true →
          r = items ++ [self_ref (task s)] ∧ length r = S (length items))
       ∧ (_append_task (task s) = false → r = items).
Proof.
  intros Ha. exists (call_args (task s) items).
  split; [apply get_args_eq, Ha|]. unfold call_args.
  split; intros ->; [|reflexivity].
  split; [reflexivity|]. rewrite length_app. simpl. lia.
Qed.

(** X2: what set_args stores is what get_args hands back: the items that
    PySequence_Tuple makes of the sequence given (none for None and for a
    rejected value), followed by the task when the append flag was set. *)
Theorem set_args_then_get_args (s : Sys) (v : PyObject) (append_task : bool) :
  ∃ s1, set_args v append_task s = Some (tt, s1)
        ∧ get_args s1
          = Some (PyTuple (template (w_trace (world s)) v
                             ++ (if append_task then [self_ref (task s)] else [])),
                  s1).
Proof.
  destruct (set_args_eq v append_task s) as (s1 & E & T & _).
  exists s1. split; [exact E|].
  rewrite (get_args_eq s1 (template (w_trace (world s)) v))
    by (rewrite T; reflexivity).
  unfold call_args. rewrite T. simpl.
  destruct append_task; [reflexivity | rewrite app_nil_r; reflexivity].
Qed.

Lemma feed_back_appending (n : nat) :
  ∀ s items,
    _args (task s) = Some (PyTuple items) → _append_task (task s) = true →
    ∃ s', feed_back true n s = Some (tt, s')
          ∧ _args (task s')
            = Some (PyTuple (items ++ replicate n (self_ref (task s))))
          ∧ _append_task (task s') = true
          ∧ base (task s') = base (task s)
          ∧ added_trace s s' [].
Proof.
  induction n as [|n IH]; intros s items Ha Hap; simpl.
  - exists s. rewrite app_nil_r. repeat split; try assumption.
    apply added_trace_nil.
  - rewrite (bind_eq _ _ _ _ _ (get_args_eq s items Ha)).
    unfold call_args. rewrite Hap.
    destruct (set_args_eq (PyTuple (items ++ [self_ref (task s)])) true s)
      as (s1 & E1 & T1 & A1 & _).
    rewrite (bind_eq _ _ _ _ _ E1).
    destruct (IH s1 (items ++ [self_ref (task s)])) as (s' & E & Ha' & Hap' & Hb & A);
      [rewrite T1; reflexivity | rewrite T1; reflexivity |].
    exists s'. split; [exact E|].
    assert (self_ref (task s1) = self_ref (task s)) as Hself
      by (rewrite T1; reflexivity).
    rewrite Hself, <- app_assoc in Ha'.
    split; [exact Ha'|]. split; [exact Hap'|].
    split; [rewrite Hb, T1; reflexivity|].
    simpl in A1. exact (added_trace_app _ _ _ _ _ A1 A).
Qed.

Lemma feed_back_plain (n : nat) :
  ∀ s items,
    _args (task s) = Some (PyTuple items) → _append_task (task s) = false →
    ∃ s', feed_back false n s = Some (tt, s') ∧ task s' = task s
          ∧ added_trace s s' [].
Proof.
  induction n as [|n IH]; intros s items Ha Hap; simpl.
  - exists s. split; [reflexivity|]. split; [reflexivity | apply added_trace_nil].
  - rewrite (bind_eq _ _ _ _ _ (get_args_eq s items Ha)).
    unfold call_args. rewrite Hap.
    destruct (set_args_eq (PyTuple items) false s) as (s1 & E1 & T1 & A1 & _).
    rewrite (bind_eq _ _ _ _ _ E1).
    assert (task s1 = task s) as T1'.
    { rewrite T1. destruct (task s); simpl in *. subst. reflexivity. }
    destruct (IH s1 items) as (s' & E & T & A);
      [rewrite T1'; exact Ha | rewrite T1'; exact Hap |].
    exists s'. split; [exact E|]. split; [congruence|].
    simpl in A1. exact (added_trace_app _ _ _ _ _ A1 A).
Qed.

(** X3: storing again the arguments that get_args gives is the identity
    only without the append flag.  With the flag, each round of
    set_args(get_args(), true) stores one more reference to the task in the
    argument tuple, after [n] rounds [n] of them behind the original items,
    and the next call passes one more still. *)
Theorem feeding_args_back (s : Sys) (items : list PyObject) (n : nat) :
  _args (task s) = Some (PyTuple items) →
  (_append_task (task s) = false →
     ∃ s', feed_back false n s = Some (tt, s') ∧ task s' = task s
           ∧ added_trace s s' [])
  ∧ (_append_task (task s) = true →
     ∃ s', feed_back true n s = Some (tt, s')
           ∧ _args (task s')
             = Some (PyTuple (items ++ replicate n (self_ref (task s))))
           ∧ get_args s'
             = Some (PyTuple (items ++ replicate (S n) (self_ref (task s))), s')
           ∧ added_trace s s' []).
Proof.
  intros Ha. split; intros Hap; [exact (feed_back_plain n s items Ha Hap)|].
  destruct (feed_back_appending n s items Ha Hap)
    as (s' & E & Ha' & Hap' & Hb & A).
  exists s'. split; [exact E|]. split; [exact Ha'|]. split; [|exact A].
  rewrite (get_args_eq s' _ Ha'). unfold call_args. rewrite Hap'.
  assert (self_ref (task s') = self_ref (task s)) as ->
    by (unfold self_ref; rewrite Hb; reflexivity).
  rewrite <- app_assoc.
  replace (replicate n (self_ref (task s)) ++ [self_ref (task s)])
    with (replicate (S n) (self_ref (task s))); [reflexivity|].
  clear. induction n as [|n IH]; simpl; [reflexivity|]. rewrite <- IH. reflexivity.
Qed.

(** ** Getters *)

(** X4: each getter returns what the matching setter stored last, a value
    the setter rejected included. *)
Theorem getters_return_stored (s : Sys) (v : PyObject) :
  (∃ s1, set_function v s = Some (tt, s1) ∧ get_function s1 = Some (v, s1))
  ∧ (∃ s1, set_upon_death v s = Some (tt, s1)
           ∧ get_upon_death s1 = Some (v, s1))
  ∧ (∀ old cb, _owner (task s) = Some old → _upon_death (task s) = Some cb →
       ∃ s1, set_owner v s = Some (tt, s1) ∧ get_owner s1 = Some (v, s1)).
Proof.
  split; [|split].
  - destruct (set_function_eq v s) as (s1 & E & T & _).
    exists s1. split; [exact E|].
    unfold get_function. unfold_monad. rewrite T. reflexivity.
  - destruct (set_upon_death_eq v s) as (s1 & E & T & _).
    exists s1. split; [exact E|].
    unfold get_upon_death. unfold_monad. rewrite T. reflexivity.
  - intros old cb Ho Hc.
    destruct (set_owner_eq old cb v s Ho Hc) as (s1 & E & T & _).
    exists s1. split; [exact E|].
    unfold get_owner. unfold_monad. rewrite T. reflexivity.
Qed.

(** ** Attributes *)

Lemma not_read_reserved_eqb (k : string) :
  k ∉ read_reserved →
  String.eqb k "time" = false ∧ String.eqb k "done" = false
  ∧ String.eqb k "cont" = false ∧ String.eqb k "again" = false
  ∧ String.eqb k "name" = false ∧ String.eqb k "id" = false.
Proof.
  intros Hk. unfold read_reserved in Hk.
  repeat split; apply String.eqb_neq; intros ->; apply Hk; repeat constructor.
Qed.

Lemma getattr_found (s : Sys) (k : string) (v : PyObject) :
  k ∉ read_reserved → _dict (task s) !! c_str k = Some v →
  __getattr__ k s = Some (Some v, s).
Proof.
  intros Hk Hv.
  destruct (not_read_reserved_eqb k Hk) as (E1 & E2 & E3 & E4 & E5 & E6).
  unfold __getattr__. unfold_monad. rewrite E1, E2, E3, E4, E5, E6, Hv.
  reflexivity.
Qed.

Lemma getattr_missing (s : Sys) (k : string) :
  k ∉ read_reserved → _dict (task s) !! c_str k = None →
  __getattr__ k s
  = Some (None, mkSys (task s)
                  (mkWorld (w_trace (world s)) (Some PyExc_KeyError))).
Proof.
  intros Hk Hv.
  destruct (not_read_reserved_eqb k Hk) as (E1 & E2 & E3 & E4 & E5 & E6).
  unfold __getattr__. unfold_monad. rewrite E1, E2, E3, E4, E5, E6, Hv.
  reflexivity.
Qed.

Lemma getattr_value (s : Sys) (k : string) :
  value_of (__getattr__ k s)
  = Some (match typed_value (task s) k with
          | Some v => Some v
          | None => _dict (task s) !! c_str k
          end).
Proof.
  destruct (getattr_eq k s) as (r & s' & E & _ & _ & H). rewrite E. simpl.
  destruct (typed_value (task s) k); destruct H as [-> _]; reflexivity.
Qed.

(** X5: a name that neither __setattr__ nor __getattr__ reserves round
    trips through the dictionary: after a write, a read gives the value
    written, and a read of any name that differs from it before the first
    NUL character gives what it gave before. *)
Theorem setattr_getattr_round_trip (s : Sys) (k : string) (v : PyObject) :
  ordinary k →
  ∃ s1, __setattr__ k v s = Some (0, s1)
        ∧ __getattr__ k s1 = Some (Some v, s1)
        ∧ ∀ k', c_str k' ≠ c_str k →
            value_of (__getattr__ k' s1) = value_of (__getattr__ k' s).
Proof.
  intros [Hw Hr]. destruct (setattr_other_eq k v s Hw) as (s1 & E & T & _).
  exists s1. split; [exact E|]. split.
  - apply getattr_found; [exact Hr|]. rewrite T. simpl. apply lookup_insert_eq.
  - intros k' Hne. rewrite !getattr_value, T. simpl.
    change (typed_value (with_dict (<[c_str k:=v]> (_dict (task s))) (task s)) k')
      with (typed_value (task s) k').
    rewrite lookup_insert_ne by congruence. reflexivity.
Qed.

(** X6: the names time, done, cont and again are written into the
    dictionary but never read from it: a write stores the value, and a
    read gives the typed value all the same, as before the write. *)
Theorem shadowed_names_unreadable (s : Sys) (k : string) (v : PyObject) :
  k ∈ shadowed →
  ∃ s1 tv, __setattr__ k v s = Some (0, s1)
           ∧ _dict (task s1) !! k = Some v
           ∧ typed_value (task s) k = Some tv
           ∧ __getattr__ k s = Some (Some tv, s)
           ∧ __getattr__ k s1 = Some (Some tv, s1).
Proof.
  intros Hk.
  assert ((k ∉ write_reserved) ∧ k ∈ read_reserved ∧ c_str k = k)
    as (Hw & Hr & Hc).
  { unfold shadowed in Hk.
    repeat (apply elem_of_cons in Hk as [->|Hk];
            [split; [apply eqb_not_reserved; reflexivity|];
             split; [repeat constructor | reflexivity]|]).
    inversion Hk. }
  destruct (setattr_other_eq k v s Hw) as (s1 & E & T & _).
  rewrite Hc in T.
  destruct (typed_value_reserved (task s) k Hr) as [tv Htv].
  exists s1, tv. split; [exact E|].
  split; [rewrite T; simpl; apply lookup_insert_eq|].
  split; [exact Htv|]. split; [apply getattr_reserved, Htv|].
  apply getattr_reserved. rewrite T. exact Htv.
Qed.

(** X7: __delattr__ works on the name up to its first NUL character.
    Deleting a name that is in the dictionary removes it and returns 0,
    after which a second delete fails and a read of the name, unless
    __getattr__ reserves it, fails with KeyError; deleting a name that is
    not there returns -1 with KeyError pending and leaves the task as it
    was; on a dictionary free of them, deleting delayTime, name or id
    always fails. *)
Theorem delattr_removes (s : Sys) (k : string) :
  (∀ v, _dict (task s) !! c_str k = Some v →
     ∃ s1, __delattr__ k s = Some (0, s1)
           ∧ task s1 = with_dict (delete (c_str k) (_dict (task s))) (task s)
           ∧ value_of (__delattr__ k s1) = Some (-1)
           ∧ (k ∉ read_reserved → value_of (__getattr__ k s1) = Some None))
  ∧ (_dict (task s) !! c_str k = None →
     ∃ s1, __delattr__ k s = Some (-1, s1) ∧ task s1 = task s
           ∧ w_pyerr (world s1) = Some PyExc_KeyError)
  ∧ (reserved_free (task s) → k ∈ write_reserved →
     value_of (__delattr__ k s) = Some (-1)).
Proof.
  assert (∀ s0, _dict (task s0) !! c_str k = None →
            ∃ s1, __delattr__ k s0 = Some (-1, s1) ∧ task s1 = task s0
                  ∧ w_pyerr (world s1) = Some PyExc_KeyError) as Hmiss.
  { intros s0 Hn. destruct (delattr_eq k s0) as (r & s1 & E & _ & H).
    rewrite Hn in H. destruct H as (-> & P & T).
    exists s1. repeat split; assumption. }
  split; [|split].
  - intros v Hv. destruct (delattr_eq k s) as (r & s1 & E & _ & H).
    rewrite Hv in H. destruct H as (-> & _ & T).
    exists s1. split; [exact E|]. split; [exact T|].
    assert (_dict (task s1) !! c_str k = None) as Hgone
      by (rewrite T; simpl; apply lookup_delete_eq).
    split.
    + destruct (Hmiss s1 Hgone) as (s2 & E2 & _). rewrite E2. reflexivity.
    + intros Hr. rewrite (getattr_missing s1 k Hr Hgone). reflexivity.
  - apply Hmiss.
  - intros Hfree Hk.
    assert (c_str k = k) as Hc
      by (apply write_reserved_cases in Hk as [->|[->| ->]]; reflexivity).
    destruct (Hmiss s) as (s1 & E & _); [rewrite Hc; exact (Hfree k Hk)|].
    rewrite E. reflexivity.
Qed.

(** X8: writing a string to name renames the task to the characters of
    the string before its first NUL: get_name, a read of name and the
    task's rendering in diagnostics give that name, while
    identifier, state and dictionary stay; writing anything else to name
    returns 0 with TypeError pending and the task as it was. *)
Theorem setattr_name_renames (s : Sys) (v : PyObject) :
  (∀ n, v = PyString n →
     ∃ s1, __setattr__ "name" v s = Some (0, s1)
           ∧ get_name (base (task s1)) = c_str n
           ∧ __getattr__ "name" s1 = Some (Some (PyString (c_str n)), s1)
           ∧ output (base (task s1)) = "PythonTask " +:+ c_str n
           ∧ _task_id (base (task s1)) = _task_id (base (task s))
           ∧ _state (base (task s1)) = _state (base (task s))
           ∧ _dict (task s1) = _dict (task s))
  ∧ (PyString_AsString v = None →
     ∃ s1, __setattr__ "name" v s = Some (0, s1) ∧ task s1 = task s
           ∧ w_pyerr (world s1) = Some PyExc_TypeError).
Proof.
  destruct (setattr_name_eq v s) as (s1 & E & _ & H). split.
  - intros n ->. simpl in H. destruct H as [_ T].
    exists s1. split; [exact E|]. split; [rewrite T; reflexivity|].
    split; [apply getattr_reserved; rewrite T; simpl;
            unfold typed_value; simpl; rewrite c_str_idemp; reflexivity|].
    rewrite T. repeat split.
  - intros Hv. rewrite Hv in H. destruct H as [P T].
    exists s1. repeat split; assumption.
Qed.

(** X9: writing to delayTime a value that PyFloat_AsDouble converts, while
    no Python error is pending, sets the delay and touches nothing else;
    while an error is pending the write is dropped, the task staying as it
    was, and 0 is returned all the same.  The delay cannot be read back:
    after any operations, none of which writes an attribute name with a NUL
    character in it, on a well-formed task whose dictionary is free of the
    reserved names, a read of delayTime fails. *)
Theorem setattr_delayTime_write_only (s : Sys) (v : PyObject) (delay : double) :
  delay_of s v = Some delay →
  (w_pyerr (world s) = None →
     ∃ s1, __setattr__ "delayTime" v s = Some (0, s1)
           ∧ task s1 = with_base (set_delay delay (base (task s))) (task s)
           ∧ _delay (base (task s1)) = delay
           ∧ _has_delay (base (task s1)) = true
           ∧ w_pyerr (world s1) = None)
  ∧ (∀ e, w_pyerr (world s) = Some e →
       ∃ s1, __setattr__ "delayTime" v s = Some (0, s1) ∧ task s1 = task s)
  ∧ (∀ ops, well_formed (task s) → reserved_free (task s) →
       forallb plain_op ops = true →
       ∃ s', run_ops ops s = Some (tt, s')
             ∧ value_of (__getattr__ "delayTime" s') = Some None).
Proof.
  intros Hv. destruct (setattr_delayTime_eq v s) as (s1 & E & _ & H).
  rewrite Hv in H. destruct H as [P T]. split; [|split].
  - intros Hn. rewrite Hn in T, P. exists s1. split; [exact E|].
    split; [exact T|]. rewrite T. repeat split. exact P.
  - intros e He. rewrite He in T. exists s1. split; [exact E | exact T].
  - intros ops Hwf Hfree Hplain.
    destruct (run_ops_keeps ops s Hwf) as (s' & E' & _ & _ & K).
    exists s'. split; [exact E'|].
    rewrite getattr_value. simpl.
    rewrite (K Hplain Hfree "delayTime") by repeat constructor. reflexivity.
Qed.

(** X10: __setattr__ returns non-zero for the name id and for no other:
    a write of delayTime or name that fails to convert its value still
    returns 0. *)
Theorem setattr_return_code (s : Sys) (k : string) (v : PyObject) :
  ∃ r s1, __setattr__ k v s = Some (r, s1)
          ∧ (k = "id" → r = 1) ∧ (k ≠ "id" → r = 0).
Proof.
  destruct (decide (k ∈ write_reserved)) as [Hin|Hout].
  - apply write_reserved_cases in Hin as [->|[->| ->]].
    + destruct (setattr_delayTime_eq v s) as (s1 & E & _).
      exists 0, s1. split; [exact E|]. split; [discriminate | reflexivity].
    + destruct (setattr_name_eq v s) as (s1 & E & _).
      exists 0, s1. split; [exact E|]. split; [discriminate | reflexivity].
    + destruct (setattr_id_eq v s) as (s1 & E & _).
      exists 1, s1. split; [exact E|]. split; [reflexivity | congruence].
  - destruct (setattr_other_eq k v s Hout) as (s1 & E & _).
    exists 0, s1. split; [exact E|]. split; [|reflexivity].
    intros ->. exfalso. apply Hout. repeat constructor.
Qed.

(** ** Running *)

Lemma run_times_noncallable (f : PyObject) (items : list PyObject) (n : nat) :
  PyCallable_Check f = false →
  ∀ s, _function (task s) = Some f → _args (task s) = Some (PyTuple items) →
       ∃ s', run_times n s = Some (replicate n DS_abort, s')
             ∧ task s' = task s
             ∧ added_trace s s'
                 (concat (replicate n
                            [EvCall f (call_args (task s) items);
                             EvError ("Exception occurred in "
                                      +:+ output (base (task s)) +:+ nl)])).
Proof.
  intros Hnc. induction n as [|n IH]; intros s Hf Ha; simpl.
  - exists s. split; [reflexivity|]. split; [reflexivity | apply added_trace_nil].
  - destruct (do_task_eq s f items Hf Ha) as (s1 & E1 & T1 & A1 & _).
    unfold work_result in E1, A1. rewrite Hnc in E1, A1. simpl in E1, A1.
    destruct (IH s1) as (s' & E & T & A);
      [rewrite T1; exact Hf | rewrite T1; exact Ha |].
    exists s'.
    split; [rewrite (bind_eq _ _ _ _ _ E1), (bind_eq _ _ _ _ _ E); reflexivity|].
    split; [congruence|].
    rewrite T1 in A. exact (added_trace_app _ _ _ _ _ A1 A).
Qed.

(** X12: a task whose function cannot be called aborts on every run:
    each run records the attempted call and logs "Exception occurred in"
    with the task, raises no assertion, and leaves the task as it was,
    whatever the Python side would answer. *)
Theorem noncallable_function_aborts
    (s : Sys) (f : PyObject) (items : list PyObject) (n : nat) :
  _function (task s) = Some f → _args (task s) = Some (PyTuple items) →
  PyCallable_Check f = false →
  ∃ s' evs, run_times n s = Some (replicate n DS_abort, s')
            ∧ task s' = task s
            ∧ added_trace s s' evs
            ∧ evs = concat (replicate n
                              [EvCall f (call_args (task s) items);
                               EvError ("Exception occurred in "
                                        +:+ output (base (task s)) +:+ nl)])
            ∧ ∀ msg, EvAssert msg ∉ evs.
Proof.
  intros Hf Ha Hnc.
  destruct (run_times_noncallable f items n Hnc s Hf Ha) as (s' & E & T & A).
  eexists s', _. split; [exact E|]. split; [exact T|]. split; [exact A|].
  split; [reflexivity|].
  intros msg Hin. clear -Hin. induction n as [|n IH]; simpl in Hin.
  - inversion Hin.
  - apply elem_of_cons in Hin as [Hin|Hin]; [discriminate|].
    apply elem_of_cons in Hin as [Hin|Hin]; [discriminate|].
    exact (IH Hin).
Qed.

(** ** Hooks *)




(** ** Owner notifications over a task's life *)

Lemma notified_app (oid : nat) (name : string) (e1 e2 : list Event) :
  notified oid name (e1 ++ e2)
  = (notified oid name e1 + notified oid name e2)%nat.
Proof. unfold notified. rewrite List.filter_app, length_app. reflexivity. Qed.

Lemma notified_deliver_same (oid : nat) (name : string) (o : PyObject)
    (t : PythonTask) :
  notified oid name (deliver o name t) = answers o oid name.
Proof.
  unfold deliver, answers.
  destruct o as [| | | | | | |o' attrs| |]; try reflexivity.
  simpl. destruct (has_attr name attrs); simpl.
  - unfold notified. simpl. rewrite String.eqb_refl, andb_true_r.
    destruct (Nat.eqb o' oid); reflexivity.
  - rewrite andb_false_r. reflexivity.
Qed.

Lemma notified_deliver_other (oid : nat) (name name' : string) (o : PyObject)
    (t : PythonTask) :
  String.eqb name' name = false → notified oid name (deliver o name' t) = 0%nat.
Proof.
  intros Hne. unfold deliver.
  destruct o as [| | | | | | |o' attrs| |]; try reflexivity.
  simpl. destruct (has_attr name' attrs); [|reflexivity].
  unfold notified. simpl. rewrite Hne, andb_false_r. reflexivity.
Qed.

Lemma notified_plain (oid : nat) (name : string) (f : PyObject)
    (args : list PyObject) :
  plain_callable f = true → name = "_addTask" ∨ name = "_clearTask" →
  is_notification oid name (EvCall f args) = false.
Proof.
  intros Hp Hn. destruct f; try reflexivity. simpl in *.
  apply andb_true_iff in Hp as [H1 H2].
  apply negb_true_iff in H1, H2.
  destruct Hn as [-> | ->]; rewrite ?H1, ?H2, andb_false_r; reflexivity.
Qed.

Lemma notified_cons_plain (oid : nat) (name : string) (f : PyObject)
    (args : list PyObject) (l : list Event) :
  plain_callable f = true → name = "_addTask" ∨ name = "_clearTask" →
  notified oid name (EvCall f args :: l) = notified oid name l.
Proof.
  intros Hp Hn. unfold notified. cbn [List.filter].
  rewrite (notified_plain _ _ _ _ Hp Hn). reflexivity.
Qed.

Lemma notified_completion (oid : nat) (name : string) (cb : PyObject)
    (t : PythonTask) :
  plain_callable cb = true → name = "_addTask" ∨ name = "_clearTask" →
  notified oid name (completion cb t) = 0%nat.
Proof.
  intros Hp Hn. unfold completion. destruct (is_Py_None cb); [reflexivity|].
  unfold notified, invoke. cbn [List.filter].
  rewrite (notified_plain _ _ _ _ Hp Hn). reflexivity.
Qed.

Lemma notified_interpret (oid : nat) (name : string) (t : PythonTask)
    (result : PyPtr) :
  notified oid name (snd (interpret t result)) = 0%nat.
Proof.
  unfold interpret. destruct result as [r|]; [|reflexivity].
  destruct r; try reflexivity.
  destruct (switch_retval (int_of_long n)); reflexivity.
Qed.

Lemma notified_debug (oid : nat) (name : string) (t : PythonTask)
    (k : string) (v : PyObject) :
  notified oid name (debug_events t k v) = 0%nat.
Proof. unfold debug_events. destruct task_cat_is_debug; reflexivity. Qed.

Lemma answers_symmetric (o : PyObject) (oid : nat) :
  symmetric_owner o = true → answers o oid "_addTask" = answers o oid "_clearTask".
Proof.
  destruct o as [| | | | | | |o' attrs| |]; try reflexivity. simpl.
  intros H. apply Bool.eqb_prop in H. rewrite H. reflexivity.
Qed.

(** A computation that sends [oid] as many _addTask more than _clearTask
    as its registration grows keeps the balance. *)
Lemma balanced_after (s s' : Sys) (evs : list Event) :
  added_trace s s' evs →
  (∀ oid, (notified oid "_addTask" evs + registered (task s) oid
           = notified oid "_clearTask" evs + registered (task s') oid)%nat) →
  balanced s → balanced s'.
Proof.
  unfold balanced, added_trace. intros A H B oid.
  rewrite A, !notified_app. specialize (H oid). specialize (B oid). lia.
Qed.

(** The same for a computation that notifies nobody and leaves owner and
    state alone. *)
Lemma balanced_quiet (s s' : Sys) (evs : list Event) :
  added_trace s s' evs →
  (∀ oid, notified oid "_addTask" evs = 0%nat
          ∧ notified oid "_clearTask" evs = 0%nat) →
  _owner (task s') = _owner (task s) →
  is_active (task s') = is_active (task s) →
  balanced s → balanced s'.
Proof.
  intros A Hq Ho Hi. apply (balanced_after s s' evs A).
  intros oid. destruct (Hq oid) as [-> ->].
  unfold registered. rewrite Ho, Hi. reflexivity.
Qed.

Lemma tame_same (t t' : PythonTask) :
  _owner t' = _owner t → _function t' = _function t →
  _upon_death t' = _upon_death t → tame t → tame t'.
Proof.
  intros Ho Hf Hu (H1 & H2 & H3). unfold tame. rewrite Ho, Hf, Hu.
  repeat split; assumption.
Qed.

Lemma notified_cons_death (oid : nat) (name : string) (b : bool)
    (l : list Event) :
  notified oid name (EvDeath b :: l) = notified oid name l.
Proof. reflexivity. Qed.

Lemma notified_cons_birth (oid : nat) (name : string) (l : list Event) :
  notified oid name (EvBirth :: l) = notified oid name l.
Proof. reflexivity. Qed.

Lemma quiet_nil (oid : nat) :
  notified oid "_addTask" [] = 0%nat ∧ notified oid "_clearTask" [] = 0%nat.
Proof. split; reflexivity. Qed.

Lemma setattr_balanced (k : string) (v : PyObject) (s : Sys) :
  balanced s → tame (task s) →
  ∃ r s', __setattr__ k v s = Some (r, s') ∧ balanced s' ∧ tame (task s').
Proof.
  intros B Tm.
  assert (∀ s' evs t', added_trace s s' evs →
            (evs = debug_events (task s) k v
             ∨ evs = debug_events (task s) k v
                       ++ [EvAssert "Cannot set constant value"]) →
            task s' = t' →
            _owner t' = _owner (task s) → is_active t' = is_active (task s) →
            _function t' = _function (task s) →
            _upon_death t' = _upon_death (task s) →
            balanced s' ∧ tame (task s')) as Hgen.
  { intros s' evs t' A Hev <- Ho Hi Hf Hu. split.
    - apply (balanced_quiet s s' evs A); [|exact Ho|exact Hi|exact B].
      intros oid. destruct Hev as [-> | ->]; rewrite ?notified_app, !notified_debug;
        split; reflexivity.
    - exact (tame_same _ _ Ho Hf Hu Tm). }
  destruct (decide (k ∈ write_reserved)) as [Hin|Hout].
  - apply write_reserved_cases in Hin as [->|[->| ->]].
    + destruct (setattr_delayTime_eq v s) as (s' & E & A & H).
      exists 0, s'. split; [exact E|].
      destruct (delay_of s v) as [delay|]; destruct H as [_ T].
      * destruct (w_pyerr (world s));
          apply (Hgen s' _ _ A (or_introl eq_refl) T); reflexivity.
      * apply (Hgen s' _ _ A (or_introl eq_refl) T); reflexivity.
    + destruct (setattr_name_eq v s) as (s' & E & A & H).
      exists 0, s'. split; [exact E|].
      destruct (PyString_AsString v) as [name|]; destruct H as [_ T];
        apply (Hgen s' _ _ A (or_introl eq_refl) T); reflexivity.
    + destruct (setattr_id_eq v s) as (s' & E & T & A & _).
      exists 1, s'. split; [exact E|].
      apply (Hgen s' _ _ A (or_intror eq_refl) T); reflexivity.
  - destruct (setattr_other_eq k v s Hout) as (s' & E & T & A & _).
    exists 0, s'. split; [exact E|].
    apply (Hgen s' _ _ A (or_introl eq_refl) T); reflexivity.
Qed.

Lemma set_owner_balanced (new : PyObject) (s : Sys) :
  well_formed (task s) → balanced s → tame (task s) →
  symmetric_owner new = true →
  ∃ s', set_owner new s = Some (tt, s') ∧ balanced s' ∧ tame (task s')
        ∧ well_formed (task s').
Proof.
  intros Hwf B Tm Hnew.
  destruct (wf_upon_death _ Hwf) as [cb Hc], (wf_owner _ Hwf) as [old Ho].
  destruct Tm as (To & Tf & Tu).
  destruct (set_owner_eq old cb new s Ho Hc) as (s' & E & T & A).
  exists s'. split; [exact E|]. split; [|split].
  - apply (balanced_after s s' _ A); [|exact B].
    intros oid. unfold registered. rewrite T, Ho. simpl.
    change (is_active (with_owner (Some new) (task s))) with (is_active (task s)).
    unfold unbind_events, bind_events.
    rewrite !notified_app.
    destruct (is_active (task s)); rewrite ?andb_false_r, ?andb_true_r; simpl;
      [|reflexivity].
    assert (∀ name, (name = "_addTask" ∨ name = "_clearTask") →
              notified oid name
                (if negb (is_Py_None old)
                 then EvDeath false :: deliver old "_clearTask" (task s)
                                    ++ completion cb (task s)
                 else [])
              = notified oid name (deliver old "_clearTask" (task s))) as Hun.
    { intros name Hn. destruct old; try reflexivity; cbn [is_Py_None negb];
        rewrite notified_cons_death, notified_app,
          (notified_completion _ _ _ _ (Tu _ Hc) Hn);
        apply Nat.add_0_r. }
    assert (∀ name, notified oid name
                      (if negb (is_Py_None new)
                       then EvBirth :: deliver new "_addTask" (task s)
                       else [])
                    = notified oid name (deliver new "_addTask" (task s))) as Hbi.
    { intros name. destruct new; reflexivity. }
    rewrite !Hun, !Hbi by tauto.
    rewrite !notified_deliver_same.
    rewrite !notified_deliver_other by reflexivity.
    rewrite (answers_symmetric old oid (To _ Ho)). lia.
  - unfold tame. rewrite T. simpl. repeat split.
    + intros o [= <-]. exact Hnew.
    + exact Tf.
    + exact Tu.
  - rewrite T. destruct Hwf. constructor; simpl; eauto.
Qed.

Lemma step_balanced (op : Op) (s : Sys) :
  well_formed (task s) → tame (task s) → balanced s → tame_op op = true →
  ∃ s', step op s = Some (tt, s') ∧ well_formed (task s')
        ∧ tame (task s') ∧ balanced s'.
Proof.
  intros Hwf Tm B Hop.
  destruct (step_keeps op s Hwf) as (s0 & E0 & Kwf & _).
  specialize (Kwf Hwf).
  destruct (wf_function _ Hwf) as [f Hf], (wf_args _ Hwf) as [items Ha],
    (wf_upon_death _ Hwf) as [cb Hc], (wf_owner _ Hwf) as [own Ho].
  pose proof Tm as (To & Tf & Tu).
  assert (∀ s', step op s = Some (tt, s') → tame (task s') ∧ balanced s' →
            ∃ s', step op s = Some (tt, s') ∧ well_formed (task s')
                  ∧ tame (task s') ∧ balanced s') as Hfin.
  { intros s' E [H1 H2]. exists s'. split; [exact E|].
    split; [|split; assumption].
    assert (s0 = s') as <- by congruence. exact Kwf. }
  destruct op; simpl in *.
  - destruct (set_function_eq function s) as (s' & E & T & A & _).
    apply (Hfin s' E). split.
    + unfold tame. rewrite T. simpl. repeat split; try assumption.
      intros f' [= <-]. exact Hop.
    + apply (balanced_quiet s s' _ A); [|rewrite T; reflexivity..|exact B].
      intros oid. destruct (PyCallable_Check function); split; reflexivity.
  - destruct (set_args_eq args append_task s) as (s' & E & T & A & _).
    apply (Hfin s' E). split.
    + apply (tame_same (task s)); [rewrite T; reflexivity..|exact Tm].
    + apply (balanced_quiet s s' _ A); [|rewrite T; reflexivity..|exact B].
      intros oid. destruct (valid_args (w_trace (world s)) args); split; reflexivity.
  - destruct (set_upon_death_eq upon_death0 s) as (s' & E & T & A & _).
    apply (Hfin s' E). split.
    + unfold tame. rewrite T. simpl. repeat split; try assumption.
      intros f' [= <-]. exact Hop.
    + apply (balanced_quiet s s' _ A); [|rewrite T; reflexivity..|exact B].
      intros oid.
      destruct (negb (is_Py_None upon_death0)
                && negb (PyCallable_Check upon_death0)); split; reflexivity.
  - destruct (set_owner_balanced owner s Hwf B Tm Hop) as (s' & E & B' & Tm' & _).
    apply (Hfin s' E). split; assumption.
  - destruct (setattr_balanced attr_name v s B Tm) as (r & s' & E & B' & Tm').
    apply (Hfin s'); [|split; assumption].
    unfold discard. rewrite (bind_eq _ _ _ _ _ E). reflexivity.
  - destruct (delattr_eq attr_name s) as (r & s' & E & A & H).
    assert (_owner (task s') = _owner (task s)
            ∧ is_active (task s') = is_active (task s)
            ∧ _function (task s') = _function (task s)
            ∧ _upon_death (task s') = _upon_death (task s)) as (H1 & H2 & H3 & H4).
    { destruct (_dict (task s) !! c_str attr_name); destruct H as (_ & _ & ->);
        repeat split. }
    apply (Hfin s'); [unfold discard; rewrite (bind_eq _ _ _ _ _ E); reflexivity|].
    split; [exact (tame_same _ _ H1 H3 H4 Tm)|].
    apply (balanced_quiet s s' []); [|apply quiet_nil|exact H1|exact H2|exact B].
    unfold added_trace. rewrite A, app_nil_r. reflexivity.
  - destruct (getattr_eq attr_name s) as (r & s' & E & T & A & _).
    apply (Hfin s'); [unfold discard; rewrite (bind_eq _ _ _ _ _ E); reflexivity|].
    split; [rewrite T; exact Tm|].
    apply (balanced_quiet s s' []); [|apply quiet_nil|rewrite T; reflexivity..|exact B].
    unfold added_trace. rewrite A, app_nil_r. reflexivity.
  - destruct (do_task_eq s f items Hf Ha) as (s' & E & T & A & _).
    apply (Hfin s'); [unfold discard; rewrite (bind_eq _ _ _ _ _ E); reflexivity|].
    split; [rewrite T; exact Tm|].
    apply (balanced_quiet s s' _ A); [|rewrite T; reflexivity..|exact B].
    intros oid. rewrite !(notified_cons_plain _ _ _ _ _ (Tf _ Hf)) by tauto.
    split; apply notified_interpret.
  - destruct (is_active (task s)) eqn:Hi.
    + apply (Hfin s); [|split; assumption].
      unfold activate. unfold bind, get_task. rewrite Hi. reflexivity.
    + destruct (activate_eq own s Ho Hi) as (s' & E & T & A).
      apply (Hfin s' E). split.
      * apply (tame_same (task s)); [rewrite T; reflexivity..|exact Tm].
      * apply (balanced_after s s' _ A); [|exact B].
        intros oid. unfold registered. rewrite T. simpl. rewrite Ho, Hi.
        rewrite !notified_cons_birth, notified_deliver_same.
        rewrite notified_deliver_other by reflexivity.
        change (is_active (with_base (set_state S_active (base (task s))) (task s)))
          with true.
        lia.
  - destruct (is_active (task s)) eqn:Hi.
    + destruct (deactivate_eq clean_exit own cb s Ho Hc Hi) as (s' & E & T & A).
      apply (Hfin s' E). split.
      * apply (tame_same (task s)); [rewrite T; reflexivity..|exact Tm].
      * apply (balanced_after s s' _ A); [|exact B].
        intros oid. unfold registered. rewrite T. simpl. rewrite Ho, Hi.
        rewrite !notified_cons_death, !notified_app, notified_deliver_same.
        rewrite notified_deliver_other by reflexivity.
        rewrite !(notified_completion _ _ _ _ (Tu _ Hc)) by tauto.
        change (is_active (with_base (set_state S_inactive (base (task s))) (task s)))
          with false.
        rewrite (answers_symmetric own oid (To _ Ho)). lia.
    + apply (Hfin s); [|split; assumption].
      unfold deactivate. unfold bind, get_task. rewrite Hi. reflexivity.
Qed.

Lemma run_ops_balanced (ops : list Op) :
  ∀ s, well_formed (task s) → tame (task s) → balanced s →
       forallb tame_op ops = true →
       ∃ s', run_ops ops s = Some (tt, s') ∧ well_formed (task s')
             ∧ tame (task s') ∧ balanced s'.
Proof.
  induction ops as [|op ops IH]; intros s Hwf Tm B Hops; simpl; simpl in Hops.
  - exists s. split; [reflexivity|]. split; [exact Hwf|].
    split; [exact Tm | exact B].
  - apply andb_true_iff in Hops as [Hop Hops].
    destruct (step_balanced op s Hwf Tm B Hop) as (s1 & E1 & Hwf1 & Tm1 & B1).
    destruct (IH s1 Hwf1 Tm1 B1 Hops) as (s2 & E2 & H2).
    exists s2. rewrite (bind_eq _ _ _ _ _ E1). split; [exact E2 | exact H2].
Qed.

Lemma registered_le (t : PythonTask) (oid : nat) :
  (registered t oid ≤ 1)%nat ∧ (is_active t = false → registered t oid = 0%nat).
Proof.
  unfold registered, answers. destruct (_owner t) as [o|]; [|split; [lia|reflexivity]].
  destruct (is_active t); [|split; [lia|reflexivity]].
  split; [|discriminate].
  destruct o; try lia. destruct (_ && _); lia.
Qed.

(** X14: owners are notified in matched pairs.  Start from a well-formed
    task whose trace is balanced, and perform any operations in which every
    owner set has _addTask and _clearTask together or neither, and no work
    function or completion callback is itself a method of those names.
    Then at the end every object has been sent _clearTask never more often
    than _addTask and at most once less; exactly as often when the task is
    Inactive or owned by another; and once less exactly when the task is
    Active and owned by that object. *)
Theorem owner_notifications_balanced (s : Sys) (ops : list Op) :
  well_formed (task s) → tame (task s) → balanced s →
  forallb tame_op ops = true →
  ∃ s', run_ops ops s = Some (tt, s')
        ∧ balanced s'
        ∧ ∀ oid,
            (notified oid "_clearTask" (w_trace (world s'))
             ≤ notified oid "_addTask" (w_trace (world s'))
             ≤ notified oid "_clearTask" (w_trace (world s')) + 1)%nat
            ∧ (is_active (task s') = false →
               notified oid "_addTask" (w_trace (world s'))
               = notified oid "_clearTask" (w_trace (world s'))).
Proof.
  intros Hwf Tm B Hops.
  destruct (run_ops_balanced ops s Hwf Tm B Hops) as (s' & E & _ & _ & B').
  exists s'. split; [exact E|]. split; [exact B'|].
  intros oid. specialize (B' oid).
  destruct (registered_le (task s') oid) as [Hle Hz].
  split; [lia|]. intros Hi. rewrite (Hz Hi) in B'. lia.
Qed.

(** ** What an operation leaves alone *)

Ltac frame_finish T :=
  rewrite ?T; simpl;
  repeat match goal with |- _ ∧ _ => split end;
  intros;
  try reflexivity;
  try (split; reflexivity);
  try (exfalso;
       match goal with
       | H : ∀ _ _, _ ≠ _ |- _ => solve [eapply H; reflexivity]
       | H : ∀ _, _ ≠ _ |- _ => solve [eapply H; reflexivity]
       | H : _ ≠ _ |- _ => solve [apply H; reflexivity]
       end);
  try match goal with
      | H : _ ∨ _ |- _ => destruct H as [H|[? H]]; discriminate H
      end.

(** X15: every operation leaves alone what it is not there to change.
    Only set_function changes the function, only set_args the stored
    arguments and the append flag, only set_upon_death the completion
    callback, only set_owner the owner, only writes and deletes of
    attributes the dictionary, only a write of name the name, only a write
    of delayTime the delay, and only activation and deactivation the state;
    a run and a read of an attribute change nothing of the task. *)
Theorem operations_frame (op : Op) (s : Sys) :
  well_formed (task s) →
  ∃ s', step op s = Some (tt, s')
        ∧ ((∀ f, op ≠ OpSetFunction f) →
           _function (task s') = _function (task s))
        ∧ ((∀ a b, op ≠ OpSetArgs a b) →
           _args (task s') = _args (task s)
           ∧ _append_task (task s') = _append_task (task s))
        ∧ ((∀ f, op ≠ OpSetUponDeath f) →
           _upon_death (task s') = _upon_death (task s))
        ∧ ((∀ o, op ≠ OpSetOwner o) → _owner (task s') = _owner (task s))
        ∧ ((∀ k v, op ≠ OpSetAttr k v) → (∀ k, op ≠ OpDelAttr k) →
           _dict (task s') = _dict (task s))
        ∧ ((∀ v, op ≠ OpSetAttr "name" v) →
           _name (base (task s')) = _name (base (task s)))
        ∧ ((∀ v, op ≠ OpSetAttr "delayTime" v) →
           _delay (base (task s')) = _delay (base (task s))
           ∧ _has_delay (base (task s')) = _has_delay (base (task s)))
        ∧ (op ≠ OpActivate → (∀ c, op ≠ OpDeactivate c) →
           _state (base (task s')) = _state (base (task s)))
        ∧ (op = OpRun ∨ (∃ k, op = OpGetAttr k) → task s' = task s).
Proof.
  intros Hwf.
  destruct (wf_function _ Hwf) as [f Hf], (wf_args _ Hwf) as [items Ha],
    (wf_upon_death _ Hwf) as [cb Hc], (wf_owner _ Hwf) as [own Ho].
  destruct op; simpl.
  - destruct (set_function_eq function s) as (s' & E & T & _).
    exists s'. split; [exact E|]. frame_finish T.
  - destruct (set_args_eq args append_task s) as (s' & E & T & _).
    exists s'. split; [exact E|]. frame_finish T.
  - destruct (set_upon_death_eq upon_death0 s) as (s' & E & T & _).
    exists s'. split; [exact E|]. frame_finish T.
  - destruct (set_owner_eq own cb owner s Ho Hc) as (s' & E & T & _).
    exists s'. split; [exact E|]. frame_finish T.
  - unfold discard.
    destruct (decide (attr_name ∈ write_reserved)) as [Hin|Hout].
    + apply write_reserved_cases in Hin as [->|[->| ->]].
      * destruct (setattr_delayTime_eq v s) as (s' & E & _ & H).
        exists s'. rewrite (bind_eq _ _ _ _ _ E). split; [reflexivity|].
        destruct (delay_of s v) as [delay|]; destruct H as [_ T];
          [destruct (w_pyerr (world s))|]; frame_finish T.
      * destruct (setattr_name_eq v s) as (s' & E & _ & H).
        exists s'. rewrite (bind_eq _ _ _ _ _ E). split; [reflexivity|].
        destruct (PyString_AsString v) as [name|]; destruct H as [_ T];
          frame_finish T.
      * destruct (setattr_id_eq v s) as (s' & E & T & _).
        exists s'. rewrite (bind_eq _ _ _ _ _ E). split; [reflexivity|].
        frame_finish T.
    + destruct (setattr_other_eq attr_name v s Hout) as (s' & E & T & _).
      exists s'. rewrite (bind_eq _ _ _ _ _ E). split; [reflexivity|].
      frame_finish T.
  - unfold discard. destruct (delattr_eq attr_name s) as (r & s' & E & _ & H).
    exists s'. rewrite (bind_eq _ _ _ _ _ E). split; [reflexivity|].
    destruct (_dict (task s) !! c_str attr_name); destruct H as (_ & _ & T);
      frame_finish T.
  - unfold discard. destruct (getattr_eq attr_name s) as (r & s' & E & T & _).
    exists s'. rewrite (bind_eq _ _ _ _ _ E). split; [reflexivity|].
    frame_finish T.
  - unfold discard. destruct (do_task_eq s f items Hf Ha) as (s' & E & T & _).
    exists s'. rewrite (bind_eq _ _ _ _ _ E). split; [reflexivity|].
    frame_finish T.
  - destruct (is_active (task s)) eqn:Hi.
    + exists s. unfold activate. unfold bind, get_task. rewrite Hi.
      split; [reflexivity|]. frame_finish Hi.
    + destruct (activate_eq own s Ho Hi) as (s' & E & T & _).
      exists s'. split; [exact E|]. frame_finish T.
  - destruct (is_active (task s)) eqn:Hi.
    + destruct (deactivate_eq clean_exit own cb s Ho Hc Hi) as (s' & E & T & _).
      exists s'. split; [exact E|]. frame_finish T.
    + exists s. unfold deactivate. unfold bind, get_task. rewrite Hi.
      split; [reflexivity|]. frame_finish Hi.
Qed.

(** ** Pointers *)

(** X16: the constructor sets the four pointer fields of the task and the
    operations keep them set.  On a task made by the constructor, after any
    operations (the rendering of a value for a log line being taken to
    succeed), none of _function, _args, _upon_death and _owner is NULL, the
    stored arguments are a tuple, and the getters and both hooks, which
    read these fields, return. *)
Theorem constructed_task_fields_set
    (function : PyObject) (name : string) (id : Z) (w : World) (ops : list Op) :
  ∃ s s', PythonTask_new function name id w = Some (tt, s)
          ∧ run_ops ops s = Some (tt, s')
          ∧ is_Some (_function (task s'))
          ∧ (∃ items, _args (task s') = Some (PyTuple items))
          ∧ is_Some (_upon_death (task s')) ∧ is_Some (_owner (task s'))
          ∧ is_Some (get_args s') ∧ is_Some (get_function s')
          ∧ is_Some (get_upon_death s') ∧ is_Some (get_owner s')
          ∧ (∀ clean_exit, is_Some (upon_death clean_exit s'))
          ∧ is_Some (upon_birth s').
Proof.
  destruct (PythonTask_new_well_formed function name id w)
    as (s & E & Hwf & _).
  destruct (run_ops_keeps ops s Hwf) as (s' & E' & Kwf & _).
  specialize (Kwf Hwf).
  destruct (wf_function _ Kwf) as [f Hf], (wf_args _ Kwf) as [items Ha],
    (wf_upon_death _ Kwf) as [cb Hc], (wf_owner _ Kwf) as [own Ho].
  exists s, s'. split; [exact E|]. split; [exact E'|].
  split; [rewrite Hf; eauto|].
  split; [exists items; exact Ha|].
  split; [rewrite Hc; eauto|]. split; [rewrite Ho; eauto|].
  split; [rewrite (get_args_eq s' items Ha); eauto|].
  split; [unfold get_function; unfold_monad; rewrite Hf; eauto|].
  split; [unfold get_upon_death; unfold_monad; rewrite Hc; eauto|].
  split; [unfold get_owner; unfold_monad; rewrite Ho; eauto|].
  split.
  - intros c. destruct (upon_death_eq c own cb s' Ho Hc) as (s2 & E2 & _).
    rewrite E2. eauto.
  - destruct (upon_birth_eq own s' Ho) as (s2 & E2 & _). rewrite E2. eauto.
Qed.

End Methods.

(** * The methods on concrete tasks *)

(** C1, as stated, fails: the death hook of a task with an owner and a
    completion callback, and with it the transition of the Active task to
    Inactive, calls the owner's _clearTask first; the callback is not
    invoked before it but after it. *)
Lemma completion_callback_after_clearTask :
  trace_of (upon_death demo_repr (returning Py_None) true
              (demo_sys S_active (demo_owner 1) (PyFunction 9)))
  = [EvDeath true;
     EvCall (PyBoundMethod 1 "_clearTask") [PyTaskRef 7];
     EvCall (PyFunction 9) [PyTaskRef 7]]
  ∧ trace_of (deactivate demo_repr (returning Py_None) true
                (demo_sys S_active (demo_owner 1) (PyFunction 9)))
    = [EvDeath true;
       EvCall (PyBoundMethod 1 "_clearTask") [PyTaskRef 7];
       EvCall (PyFunction 9) [PyTaskRef 7]]
  ∧ ¬ precedes (EvCall (PyFunction 9) [PyTaskRef 7])
               (EvCall (PyBoundMethod 1 "_clearTask") [PyTaskRef 7])
               (trace_of (deactivate demo_repr (returning Py_None) true
                            (demo_sys S_active (demo_owner 1) (PyFunction 9)))).
Proof.
  split; [reflexivity|]. split; [reflexivity|].
  change (trace_of _) with
    [EvDeath true;
     EvCall (PyBoundMethod 1 "_clearTask") [PyTaskRef 7];
     EvCall (PyFunction 9) [PyTaskRef 7]].
  intros H.
  apply precedes_cons in H as [[H _]|H]; [discriminate|].
  apply precedes_cons in H as [[H _]|H]; [discriminate|].
  apply precedes_cons in H as [[_ H]|H]; [inversion H|].
  exact (precedes_nil _ _ H).
Qed.

(** [death_hook_clears_then_completes] on the spin task. *)
Lemma death_hook_clears_then_completes_witness :
  is_active (demo_task S_active (demo_owner 1) (PyFunction 9)) = true
  ∧ ∃ s', deactivate demo_repr (returning Py_None) true
            (demo_sys S_active (demo_owner 1) (PyFunction 9)) = Some (tt, s')
          ∧ is_active (task s') = false
          ∧ precedes (EvCall (PyBoundMethod 1 "_clearTask") [PyTaskRef 7])
                     (EvCall (PyFunction 9) [PyTaskRef 7])
                     (w_trace (world s')).
Proof.
  split; [reflexivity|].
  destruct (death_hook_clears_then_completes demo_repr (returning Py_None)
              (demo_sys S_active (demo_owner 1) (PyFunction 9)) true
              (demo_owner 1) (PyFunction 9) eq_refl eq_refl) as [_ H].
  destruct (H eq_refl) as (s' & E & Hi & _ & Hall).
  exists s'. split; [exact E|]. split; [exact Hi|].
  exact (proj2 (Hall (PyBoundMethod 1 "_clearTask") eq_refl eq_refl)).
Defined.

(** [set_owner_fires_completion_callback] on the spin task. *)
Lemma set_owner_fires_completion_callback_witness :
  is_active (demo_task S_active (demo_owner 1) (PyFunction 9)) = true
  ∧ ∃ s' evs,
      set_owner demo_repr (returning Py_None) (demo_owner 2)
        (demo_sys S_active (demo_owner 1) (PyFunction 9)) = Some (tt, s')
      ∧ is_active (task s') = true
      ∧ added_trace (demo_sys S_active (demo_owner 1) (PyFunction 9)) s' evs
      ∧ precedes (EvDeath false) (EvCall (PyFunction 9) [PyTaskRef 7]) evs.
Proof.
  split; [reflexivity|].
  apply (set_owner_fires_completion_callback demo_repr (returning Py_None)
           (demo_sys S_active (demo_owner 1) (PyFunction 9))
           (demo_owner 1) (PyFunction 9) (demo_owner 2));
    reflexivity.
Defined.

(** C5, as stated, fails: set_owner given the owner the task already has
    delivers "cleared" to it and then "added" to it, so the old owner
    receives "added" and the new owner receives "cleared" during the
    rebinding. *)
Lemma set_owner_same_owner_cleared_and_added :
  trace_of (set_owner demo_repr (returning Py_None) (demo_owner 1)
              (demo_sys S_active (demo_owner 1) Py_None))
  = [EvDeath false; EvCall (PyBoundMethod 1 "_clearTask") [PyTaskRef 7];
     EvBirth; EvCall (PyBoundMethod 1 "_addTask") [PyTaskRef 7]]
  ∧ (_owner <$> task_of (set_owner demo_repr (returning Py_None) (demo_owner 1)
                           (demo_sys S_active (demo_owner 1) Py_None)))
    = Some (Some (demo_owner 1)).
Proof. split; reflexivity. Qed.

(** [set_owner_clears_old_then_adds_new] on the spin task. *)
Lemma set_owner_clears_old_then_adds_new_witness :
  ∃ s',
    set_owner demo_repr (returning Py_None) (demo_owner 2)
      (demo_sys S_active (demo_owner 1) Py_None) = Some (tt, s')
    ∧ _owner (task s') = Some (demo_owner 2)
    ∧ w_trace (world s')
      = [EvDeath false; EvCall (PyBoundMethod 1 "_clearTask") [PyTaskRef 7];
         EvBirth; EvCall (PyBoundMethod 2 "_addTask") [PyTaskRef 7]].
Proof.
  destruct (set_owner_clears_old_then_adds_new demo_repr (returning Py_None)
              (demo_sys S_active (demo_owner 1) Py_None)
              (demo_owner 1) Py_None (demo_owner 2) eq_refl eq_refl)
    as (s' & cleared & mid & added & E & T & A & -> & -> & -> & _).
  exists s'. split; [exact E|]. split; [rewrite T; reflexivity|].
  exact A.
Defined.

Lemma demo_well_formed (st : State) (owner cb : PyObject) :
  well_formed (demo_task st owner cb).
Proof. constructor; simpl; eauto. Qed.

Lemma demo_reserved_free (st : State) (owner cb : PyObject) :
  reserved_free (demo_task st owner cb).
Proof. intros k _. apply lookup_empty. Qed.

(** C3, as stated, fails: a write of time is not intercepted; it succeeds
    and puts the name in the dictionary. *)
Lemma setattr_time_stored_in_dict :
  value_of (__setattr__ demo_repr false no_float "time" (PyInt 5)
              (demo_sys S_inactive Py_None Py_None)) = Some 0%Z
  ∧ (task_of (__setattr__ demo_repr false no_float "time" (PyInt 5)
                (demo_sys S_inactive Py_None Py_None))
       ≫= λ t, _dict t !! "time") = Some (PyInt 5).
Proof. split; vm_compute; reflexivity. Qed.

(** A name with a NUL character in it is no reserved name for
    __setattr__, and is stored under its characters before the NUL: so a
    write can put delayTime itself into the dictionary. *)
Lemma setattr_nul_name_truncated :
  plain_op (OpSetAttr ("delayTime" +:+ String Ascii.zero "x") (PyInt 5)) = false
  ∧ (task_of (__setattr__ demo_repr false no_float
                ("delayTime" +:+ String Ascii.zero "x") (PyInt 5)
                (demo_sys S_inactive Py_None Py_None))
       ≫= λ t, _dict t !! "delayTime") = Some (PyInt 5).
Proof. split; vm_compute; reflexivity. Qed.

(** [reserved_names_intercepted] on the spin task. *)
Lemma reserved_names_intercepted_witness :
  "name" ∈ write_reserved ∧ "time" ∈ read_reserved
  ∧ forallb plain_op
      [OpSetAttr "name" (PyString "idle"); OpSetAttr "hits" (PyInt 5);
       OpActivate; OpRun; OpDelAttr "hits"] = true
  ∧ (∃ r s', __setattr__ demo_repr false no_float "name" (PyString "idle")
               (demo_sys S_inactive Py_None Py_None) = Some (r, s')
             ∧ _dict (task s') = ∅)
  ∧ (∃ v, __getattr__ no_clock "time" (demo_sys S_inactive Py_None Py_None)
          = Some (Some v, demo_sys S_inactive Py_None Py_None))
  ∧ ∃ s', run_ops demo_repr (returning Py_None) no_clock false no_items no_float wrap_int
            [OpSetAttr "name" (PyString "idle"); OpSetAttr "hits" (PyInt 5);
             OpActivate; OpRun; OpDelAttr "hits"]
            (demo_sys S_inactive Py_None Py_None) = Some (tt, s')
          ∧ reserved_free (task s').
Proof.
  destruct (reserved_names_intercepted demo_repr (returning Py_None)
              no_clock false no_items no_float wrap_int)
    as (Hw & _ & Hr & Hops).
  assert ("name" ∈ write_reserved) as Hn by repeat constructor.
  assert ("time" ∈ read_reserved) as Ht by repeat constructor.
  split; [exact Hn|]. split; [exact Ht|]. split; [reflexivity|].
  split; [exact (Hw _ _ _ Hn)|].
  split.
  - destruct (Hr (demo_sys S_inactive Py_None Py_None) _ Ht) as (v & _ & E & _).
    exists v. exact E.
  - apply Hops; [apply demo_well_formed | apply demo_reserved_free|].
    reflexivity.
Defined.

(** C4, as stated, fails: the integer 0, the code of Done itself, is one of
    the "other values" of the list, yet do_task answers Done for it, not
    Abort. *)
Lemma do_task_done_code_is_done :
  value_of (do_task demo_repr (returning (PyInt 0)) wrap_int
              (demo_sys S_active Py_None Py_None)) = Some DS_done
  ∧ listed_directive (Some (PyInt 0)) = DS_abort
  ∧ value_of (do_task demo_repr (returning (PyInt 0)) wrap_int
                (demo_sys S_active Py_None Py_None))
    ≠ Some (listed_directive (Some (PyInt 0))).
Proof.
  split; [reflexivity|]. split; [reflexivity|]. vm_compute. discriminate.
Qed.

(** [do_task_directive] on the spin task. *)
Lemma do_task_directive_witness :
  in_int_range 99 = true
  ∧ ∃ s', do_task demo_repr (returning (PyInt 99)) wrap_int
          (demo_sys S_active Py_None Py_None) = Some (DS_abort, s')
        ∧ w_trace (world s')
          = [EvCall (PyFunction 1) [PyTaskRef 7];
             EvAssert "PythonTask spin returned 99"].
Proof.
  split; [reflexivity|].
  destruct (do_task_directive demo_repr (returning (PyInt 99)) wrap_int
              (demo_sys S_active Py_None Py_None) (PyFunction 1) []
              eq_refl eq_refl) as (d & s' & diag & E & _ & A & H).
  destruct (H _ eq_refl) as (_ & _ & _ & _ & _ & Habort & _).
  destruct (Habort (PyInt 99) eq_refl) as [-> ->].
  - intros Hin.
    repeat (apply elem_of_cons in Hin as [Hin|Hin]; [discriminate Hin|]).
    inversion Hin.
  - intros n [= <-]. reflexivity.
  - exists s'. split; [exact E | exact A].
Defined.



(** C7, as stated, fails: delay is not a name __setattr__ intercepts; a
    write of delay with a value that is no number succeeds, raises nothing,
    and puts the value in the dictionary. *)
Lemma setattr_delay_stored_in_dict :
  PyFloat_AsDouble no_float [] (PyString "soon") = None
  ∧ __setattr__ demo_repr false no_float "delay" (PyString "soon")
      (demo_sys S_inactive Py_None Py_None)
    = Some (0%Z,
            mkSys (with_dict (<["delay" := PyString "soon"]> ∅)
                     (demo_task S_inactive Py_None Py_None))
              quiet).
Proof. split; reflexivity. Qed.

(** [setattr_delayTime_and_dict] on the spin task. *)
Lemma setattr_delayTime_and_dict_witness :
  delay_of demo_repr false no_float (demo_sys S_inactive Py_None Py_None)
    (PyString "soon") = None
  ∧ ("hits" ∉ write_reserved)
  ∧ (∃ s', __setattr__ demo_repr false no_float "delayTime" (PyString "soon")
             (demo_sys S_inactive Py_None Py_None) = Some (0%Z, s')
           ∧ task s' = demo_task S_inactive Py_None Py_None
           ∧ w_pyerr (world s') = Some PyExc_TypeError)
  ∧ (∃ s', __setattr__ demo_repr false no_float "hits" (PyString "soon")
             (demo_sys S_inactive Py_None Py_None) = Some (0%Z, s')
           ∧ _dict (task s') !! "hits" = Some (PyString "soon")).
Proof.
  destruct (setattr_delayTime_and_dict demo_repr false no_float
              (demo_sys S_inactive Py_None Py_None) (PyString "soon"))
    as (Hd & Hk & _).
  assert ("hits" ∉ write_reserved) as Hn
    by (apply eqb_not_reserved; reflexivity).
  split; [reflexivity|]. split; [exact Hn|]. split; [exact (Hd eq_refl)|].
  destruct (Hk "hits" Hn) as (s' & E & _ & L & _).
  exists s'. split; [exact E | exact L].
Defined.

(** [appended_task_args_rebuilt] on the spin task. *)
Lemma appended_task_args_rebuilt_witness :
  ∃ ds s' evs,
    run_times demo_repr (returning (PyInt 1)) wrap_int 3
      (demo_sys S_active Py_None Py_None) = Some (ds, s')
    ∧ length ds = 3%nat
    ∧ _args (task s') = Some (PyTuple [])
    ∧ added_trace (demo_sys S_active Py_None Py_None) s' evs
    ∧ calls evs = replicate 3 (EvCall (PyFunction 1) [PyTaskRef 7]).
Proof.
  exact (proj1 (appended_task_args_rebuilt demo_repr (returning (PyInt 1))
                  no_items wrap_int (demo_sys S_active Py_None Py_None) (PyFunction 1) 3
                  eq_refl) [] eq_refl eq_refl).
Defined.

(** [task_id_stable] on the spin task. *)
Lemma task_id_stable_witness :
  ∃ s', run_ops demo_repr (returning (PyInt 1)) no_clock false no_items no_float wrap_int
          [OpSetOwner (demo_owner 1); OpActivate;
           OpSetArgs (PyList [PyInt 7; PyInt 8]) true;
           OpSetFunction (PyFunction 2); OpRun; OpRun;
           OpSetAttr "id" (PyInt 8); OpSetOwner (demo_owner 2)]
          (demo_sys S_inactive Py_None Py_None) = Some (tt, s')
        ∧ _task_id (base (task s')) = 7%Z
        ∧ __getattr__ no_clock "id" s' = Some (Some (PyInt 7), s').
Proof.
  destruct (task_id_stable demo_repr (returning (PyInt 1)) no_clock false
              no_items no_float wrap_int (demo_sys S_inactive Py_None Py_None)
              [OpSetOwner (demo_owner 1); OpActivate;
               OpSetArgs (PyList [PyInt 7; PyInt 8]) true;
               OpSetFunction (PyFunction 2); OpRun; OpRun;
               OpSetAttr "id" (PyInt 8); OpSetOwner (demo_owner 2)]
              (demo_well_formed _ _ _)) as (s' & E & Hid & _ & Hget & _).
  exists s'. split; [exact E|]. split; [exact Hid | exact Hget].
Defined.

(** Two rebindings within one activation period invoke the completion
    callback twice, and the task is Active throughout. *)
Lemma rebinding_twice_completes_twice :
  trace_of (bind (set_owner demo_repr (returning Py_None) (demo_owner 2))
              (λ _, set_owner demo_repr (returning Py_None) (demo_owner 3))
              (demo_sys S_active (demo_owner 1) (PyFunction 9)))
  = [EvDeath false;
     EvCall (PyBoundMethod 1 "_clearTask") [PyTaskRef 7];
     EvCall (PyFunction 9) [PyTaskRef 7];
     EvBirth;
     EvCall (PyBoundMethod 2 "_addTask") [PyTaskRef 7];
     EvDeath false;
     EvCall (PyBoundMethod 2 "_clearTask") [PyTaskRef 7];
     EvCall (PyFunction 9) [PyTaskRef 7];
     EvBirth;
     EvCall (PyBoundMethod 3 "_addTask") [PyTaskRef 7]]
  ∧ (is_active <$> task_of
       (bind (set_owner demo_repr (returning Py_None) (demo_owner 2))
          (λ _, set_owner demo_repr (returning Py_None) (demo_owner 3))
          (demo_sys S_active (demo_owner 1) (PyFunction 9))))
    = Some true.
Proof. split; reflexivity. Qed.

(** A work callable that raises: do_task returns Abort, having logged the
    error line and raised no assertion. *)
Lemma do_task_raising_aborts :
  value_of (do_task demo_repr raising wrap_int (demo_sys S_active Py_None Py_None))
  = Some DS_abort
  ∧ trace_of (do_task demo_repr raising wrap_int (demo_sys S_active Py_None Py_None))
    = [EvCall (PyFunction 1) [PyTaskRef 7];
       EvError ("Exception occurred in PythonTask spin" +:+ nl)].
Proof. split; reflexivity. Qed.

(** * Further properties, across Python sides and on concrete tasks *)

(** X17: the hooks take no notice of what the owner's methods and the
    completion callback return or raise.  On two Python sides that answer
    differently, the death hook, the birth hook and set_owner end with the
    same task and the same trace: nothing more is logged, and no call is
    left out, when a callee raises. *)
Theorem hooks_ignore_callee_outcome
    (repr : PyObject → string)
    (py1 py2 : list Event → PyObject → list PyObject → PyPtr)
    (s : Sys) (owner cb new : PyObject) (clean_exit : bool) :
  _owner (task s) = Some owner → _upon_death (task s) = Some cb →
  (∃ s1 s2, upon_death repr py1 clean_exit s = Some (tt, s1)
            ∧ upon_death repr py2 clean_exit s = Some (tt, s2)
            ∧ task s1 = task s2
            ∧ w_trace (world s1) = w_trace (world s2))
  ∧ (∃ s1 s2, upon_birth repr py1 s = Some (tt, s1)
              ∧ upon_birth repr py2 s = Some (tt, s2)
              ∧ task s1 = task s2
              ∧ w_trace (world s1) = w_trace (world s2))
  ∧ (∃ s1 s2, set_owner repr py1 new s = Some (tt, s1)
              ∧ set_owner repr py2 new s = Some (tt, s2)
              ∧ task s1 = task s2
              ∧ w_trace (world s1) = w_trace (world s2)).
Proof.
  intros Ho Hc. split; [|split].
  - destruct (upon_death_eq repr py1 clean_exit owner cb s Ho Hc)
      as (s1 & E1 & T1 & A1).
    destruct (upon_death_eq repr py2 clean_exit owner cb s Ho Hc)
      as (s2 & E2 & T2 & A2).
    exists s1, s2. repeat split; congruence.
  - destruct (upon_birth_eq repr py1 owner s Ho) as (s1 & E1 & T1 & A1).
    destruct (upon_birth_eq repr py2 owner s Ho) as (s2 & E2 & T2 & A2).
    exists s1, s2. repeat split; congruence.
  - destruct (set_owner_eq repr py1 owner cb new s Ho Hc) as (s1 & E1 & T1 & A1).
    destruct (set_owner_eq repr py2 owner cb new s Ho Hc) as (s2 & E2 & T2 & A2).
    exists s1, s2. repeat split; congruence.
Qed.

(** [hooks_ignore_callee_outcome] on the spin task, between a Python side
    that returns and one that raises. *)
Lemma hooks_ignore_callee_outcome_witness :
  ∃ s1 s2,
    upon_death demo_repr (returning Py_None) true
      (demo_sys S_active (demo_owner 1) (PyFunction 9)) = Some (tt, s1)
    ∧ upon_death demo_repr raising true
        (demo_sys S_active (demo_owner 1) (PyFunction 9)) = Some (tt, s2)
    ∧ task s1 = task s2
    ∧ w_trace (world s1) = w_trace (world s2).
Proof.
  exact (proj1 (hooks_ignore_callee_outcome demo_repr (returning Py_None)
                  raising (demo_sys S_active (demo_owner 1) (PyFunction 9))
                  (demo_owner 1) (PyFunction 9) Py_None true eq_refl eq_refl)).
Defined.

(** [get_args_items] on the spin task. *)
Lemma get_args_items_witness :
  ∃ r, get_args (demo_sys S_active Py_None Py_None)
       = Some (PyTuple r, demo_sys S_active Py_None Py_None)
       ∧ r = [PyTaskRef 7].
Proof.
  destruct (get_args_items (demo_sys S_active Py_None Py_None) [] eq_refl)
    as (r & E & Happ & _).
  exists r. split; [exact E | exact (proj1 (Happ eq_refl))].
Defined.

(** [feeding_args_back] on the spin task, three rounds. *)
Lemma feeding_args_back_witness :
  ∃ s', feed_back no_items true 3 (demo_sys S_active Py_None Py_None) = Some (tt, s')
        ∧ _args (task s')
          = Some (PyTuple [PyTaskRef 7; PyTaskRef 7; PyTaskRef 7])
        ∧ get_args s'
          = Some (PyTuple [PyTaskRef 7; PyTaskRef 7; PyTaskRef 7; PyTaskRef 7],
                  s').
Proof.
  destruct (proj2 (feeding_args_back no_items (demo_sys S_active Py_None Py_None) [] 3
                     eq_refl) eq_refl) as (s' & E & Ha & Hg & _).
  exists s'. split; [exact E|]. split; [exact Ha | exact Hg].
Defined.

(** [getters_return_stored] on the spin task, for a value set_owner takes
    and set_function rejects. *)
Lemma getters_return_stored_witness :
  (∃ s1, set_function (PyInt 5) (demo_sys S_inactive Py_None Py_None)
         = Some (tt, s1)
         ∧ get_function s1 = Some (PyInt 5, s1))
  ∧ (∃ s1, set_owner demo_repr (returning Py_None) (PyInt 5)
             (demo_sys S_inactive Py_None Py_None) = Some (tt, s1)
           ∧ get_owner s1 = Some (PyInt 5, s1)).
Proof.
  destruct (getters_return_stored demo_repr (returning Py_None)
              (demo_sys S_inactive Py_None Py_None) (PyInt 5))
    as (Hf & _ & Ho).
  split; [exact Hf | exact (Ho Py_None Py_None eq_refl eq_refl)].
Defined.

Lemma hits_ordinary : ordinary "hits".
Proof.
  split; [apply eqb_not_reserved; reflexivity|].
  unfold read_reserved. intros H.
  repeat (apply elem_of_cons in H as [H|H]; [discriminate H|]). inversion H.
Qed.

(** [setattr_getattr_round_trip] on the spin task. *)
Lemma setattr_getattr_round_trip_witness :
  ordinary "hits"
  ∧ ∃ s1, __setattr__ demo_repr false no_float "hits" (PyInt 5)
            (demo_sys S_inactive Py_None Py_None) = Some (0%Z, s1)
          ∧ __getattr__ no_clock "hits" s1 = Some (Some (PyInt 5), s1).
Proof.
  split; [exact hits_ordinary|].
  destruct (setattr_getattr_round_trip demo_repr no_clock false no_float
              (demo_sys S_inactive Py_None Py_None) "hits" (PyInt 5)
              hits_ordinary) as (s1 & E & G & _).
  exists s1. split; [exact E | exact G].
Defined.

(** [shadowed_names_unreadable] on the spin task: done is written, and
    still reads as 0. *)
Lemma shadowed_names_unreadable_witness :
  "done" ∈ shadowed
  ∧ ∃ s1, __setattr__ demo_repr false no_float "done" (PyInt 5)
            (demo_sys S_inactive Py_None Py_None) = Some (0%Z, s1)
          ∧ _dict (task s1) !! "done" = Some (PyInt 5)
          ∧ __getattr__ no_clock "done" s1 = Some (Some (PyInt 0), s1).
Proof.
  assert ("done" ∈ shadowed) as Hd by repeat constructor.
  split; [exact Hd|].
  destruct (shadowed_names_unreadable demo_repr no_clock false no_float
              (demo_sys S_inactive Py_None Py_None) "done" (PyInt 5) Hd)
    as (s1 & tv & E & L & Htv & _ & G).
  injection Htv as <-.
  exists s1. split; [exact E|]. split; [exact L | exact G].
Defined.

(** [delattr_removes] on the spin task, whose dictionary is empty. *)
Lemma delattr_removes_witness :
  "name" ∈ write_reserved
  ∧ (∃ s1, __delattr__ "hits" (demo_sys S_inactive Py_None Py_None)
           = Some ((-1)%Z, s1)
           ∧ task s1 = demo_task S_inactive Py_None Py_None
           ∧ w_pyerr (world s1) = Some PyExc_KeyError)
  ∧ value_of (__delattr__ "name" (demo_sys S_inactive Py_None Py_None))
    = Some (-1)%Z.
Proof.
  assert ("name" ∈ write_reserved) as Hn by repeat constructor.
  split; [exact Hn|].
  destruct (delattr_removes no_clock (demo_sys S_inactive Py_None Py_None) "hits")
    as (_ & Hmiss & _).
  split; [exact (Hmiss (lookup_empty _))|].
  exact (proj2 (proj2 (delattr_removes no_clock
                         (demo_sys S_inactive Py_None Py_None) "name"))
           (demo_reserved_free _ _ _) Hn).
Defined.

(** [setattr_name_renames] on the spin task. *)
Lemma setattr_name_renames_witness :
  ∃ s1, __setattr__ demo_repr false no_float "name" (PyString "idle")
          (demo_sys S_inactive Py_None Py_None) = Some (0%Z, s1)
        ∧ get_name (base (task s1)) = "idle"
        ∧ output (base (task s1)) = "PythonTask idle".
Proof.
  destruct (proj1 (setattr_name_renames demo_repr no_clock false no_float
                     (demo_sys S_inactive Py_None Py_None) (PyString "idle"))
              "idle" eq_refl) as (s1 & E & N & _ & O & _).
  exists s1. split; [exact E|]. split; [exact N | exact O].
Defined.

(** [setattr_delayTime_write_only] on the spin task. *)
Lemma setattr_delayTime_write_only_witness :
  delay_of demo_repr false no_float (demo_sys S_inactive Py_None Py_None)
    (PyInt 2) = Some (double_of_long 2)
  ∧ ∃ s1, __setattr__ demo_repr false no_float "delayTime" (PyInt 2)
            (demo_sys S_inactive Py_None Py_None) = Some (0%Z, s1)
          ∧ _delay (base (task s1)) = double_of_long 2
          ∧ _has_delay (base (task s1)) = true.
Proof.
  split; [reflexivity|].
  destruct (proj1 (setattr_delayTime_write_only demo_repr (returning Py_None)
                     no_clock false no_items no_float wrap_int (demo_sys S_inactive Py_None Py_None)
                     (PyInt 2) (double_of_long 2) eq_refl) eq_refl)
    as (s1 & E & _ & D & H & _).
  exists s1. split; [exact E|]. split; [exact D | exact H].
Defined.

(** [setattr_return_code] on the spin task, for id. *)
Lemma setattr_return_code_witness :
  ∃ s1, __setattr__ demo_repr false no_float "id" (PyInt 8)
          (demo_sys S_inactive Py_None Py_None) = Some (1%Z, s1).
Proof.
  destruct (setattr_return_code demo_repr false no_float
              (demo_sys S_inactive Py_None Py_None) "id" (PyInt 8))
    as (r & s1 & E & Hid & _).
  rewrite (Hid eq_refl) in E. exists s1. exact E.
Defined.

(** [noncallable_function_aborts] on the spin task with the integer 5 for
    function. *)
Lemma noncallable_function_aborts_witness :
  PyCallable_Check (PyInt 5) = false
  ∧ ∃ s', run_times demo_repr (returning Py_None) wrap_int 2
            (mkSys (with_function (Some (PyInt 5))
                      (demo_task S_active Py_None Py_None)) quiet)
          = Some ([DS_abort; DS_abort], s')
          ∧ w_trace (world s')
            = [EvCall (PyInt 5) [PyTaskRef 7];
               EvError ("Exception occurred in PythonTask spin" +:+ nl);
               EvCall (PyInt 5) [PyTaskRef 7];
               EvError ("Exception occurred in PythonTask spin" +:+ nl)].
Proof.
  split; [reflexivity|].
  destruct (noncallable_function_aborts demo_repr (returning Py_None) wrap_int
              (mkSys (with_function (Some (PyInt 5))
                        (demo_task S_active Py_None Py_None)) quiet)
              (PyInt 5) [] 2 eq_refl eq_refl eq_refl)
    as (s' & evs & E & _ & A & -> & _).
  exists s'. split; [exact E | exact A].
Defined.


Lemma demo_tame (st : State) :
  tame (demo_task st Py_None Py_None).
Proof.
  repeat split; intros x [= <-]; reflexivity.
Qed.

Lemma demo_balanced : balanced (demo_sys S_inactive Py_None Py_None).
Proof. intros oid. reflexivity. Qed.

(** [owner_notifications_balanced] on the spin task, through two
    activations and a rebinding. *)
Lemma owner_notifications_balanced_witness :
  ∃ s', run_ops demo_repr (returning (PyInt 1)) no_clock false
          no_items no_float wrap_int
          [OpSetOwner (demo_owner 1); OpActivate; OpRun;
           OpSetOwner (demo_owner 2); OpSetUponDeath (PyFunction 9);
           OpDeactivate true; OpActivate]
          (demo_sys S_inactive Py_None Py_None) = Some (tt, s')
        ∧ notified 1 "_addTask" (w_trace (world s'))
          = notified 1 "_clearTask" (w_trace (world s'))
        ∧ (notified 2 "_addTask" (w_trace (world s'))
           ≤ notified 2 "_clearTask" (w_trace (world s')) + 1)%nat.
Proof.
  destruct (owner_notifications_balanced demo_repr (returning (PyInt 1))
              no_clock false no_items no_float wrap_int (demo_sys S_inactive Py_None Py_None)
              [OpSetOwner (demo_owner 1); OpActivate; OpRun;
               OpSetOwner (demo_owner 2); OpSetUponDeath (PyFunction 9);
               OpDeactivate true; OpActivate]
              (demo_well_formed _ _ _) (demo_tame _) demo_balanced eq_refl)
    as (s' & E & B & H).
  exists s'. split; [exact E|]. split; [|exact (proj2 (proj1 (H 2%nat)))].
  pose proof (B 1%nat) as B1. revert B1.
  assert (registered (task s') 1 = 0%nat) as ->; [|intros ->; lia].
  revert E. vm_compute. intros [= <-]. reflexivity.
Defined.

(** [operations_frame] on the spin task, for a run. *)
Lemma operations_frame_witness :
  ∃ s', step demo_repr (returning (PyInt 1)) no_clock false
          no_items no_float wrap_int OpRun
          (demo_sys S_active (demo_owner 1) (PyFunction 9)) = Some (tt, s')
        ∧ task s' = demo_task S_active (demo_owner 1) (PyFunction 9).
Proof.
  destruct (operations_frame demo_repr (returning (PyInt 1)) no_clock false
              no_items no_float wrap_int OpRun (demo_sys S_active (demo_owner 1) (PyFunction 9))
              (demo_well_formed _ _ _))
    as (s' & E & _ & _ & _ & _ & _ & _ & _ & _ & T).
  exists s'. split; [exact E | exact (T (or_introl eq_refl))].
Defined.
